(** * A model of the social-network API of [server.js]

    The server is an Express application over three Mongoose models
    ([User], [Thought], [Reaction]).  The development embeds

    - the three schemas and the collections that hold their documents,
    - the part of Mongoose the route handlers call ([create], [findById],
      [findByIdAndUpdate], [findByIdAndDelete], [save], array [push] and
      [pull]) as operations of a state-and-error monad over the database,
    - the [pre('save')] hook of [userSchema],
    - the handlers of the routes that write ([POST], [PUT], [DELETE]),
      the two listings ([GET] with [populate]) and the
      [authenticateToken] middleware,

    and then states the properties of the handlers.  The error-handling
    middleware and the start of the server are not part of it.

    Conventions.  The [await]s of a handler run in sequence and no other
    request runs in between.  An [ObjectId] is a number; route parameters
    and the references of a body are taken to be castable to [ObjectId].  A
    request body is the record of the schema paths it sets (Mongoose drops
    the others in strict mode) with values of the path's type; a date is
    sent as a number of milliseconds, which may fail to cast.  A handler
    whose promise rejects sends no response of its own: its result is the
    error.  The version key [__v] of a document is left out. *)

From Stdlib Require Import Ascii.
From stdpp Require Import gmap strings list fin_maps.

Local Open Scope string_scope.
Local Open Scope list_scope.

(** ** Schemas *)

(** [required: true] on a [String] path: the value is there and is not
    the empty string. *)
Definition required (v : string) : bool := negb (bool_decide (v = "")).

(** The paths of [doc] among [paths] that fail.  Only the members of
    the list matter: a [ValidationError] carries them as a set. *)
Definition failing {A} (paths : list (string * (A → string))) (doc : A) : list string :=
  (filter (λ p, required (p.2 doc) = false) paths).*1.

(** A number casts to a [Date] when it is a time value: at most
    8.64e15 milliseconds from the epoch, either way. *)
Definition valid_date (t : Z) : bool :=
  bool_decide (-8640000000000000 ≤ t ≤ 8640000000000000)%Z.

(** The path [path] when the body gives it a number that is no date. *)
Definition cast_date (path : string) (v : option Z) : list string :=
  match v with
  | Some t => if valid_date t then [] else [path]
  | None => []
  end.

(** The path [path] when the body gives it a value. *)
Definition sets {A} (path : string) (v : option A) : list string :=
  match v with
  | Some _ => [path]
  | None => []
  end.

Module userSchema.
Record t := mk {
  username : string;
  email : string;
  password : string;
  thoughts : list N;
  friends : list N
}.

(** [req.body] as far as the schema reads it. *)
Record body := mk_body {
  b_username : option string;
  b_email : option string;
  b_password : option string;
  b_thoughts : option (list N);
  b_friends : option (list N)
}.

Definition set_password (v : string) (u : t) : t :=
  mk (username u) (email u) v (thoughts u) (friends u).
Definition set_friends (v : list N) (u : t) : t :=
  mk (username u) (email u) (password u) (thoughts u) v.

(** [new User(body)]: a path the body leaves out is undefined; for a
    [String] path that is written as the empty string, which [required]
    rejects just as it rejects undefined.  Arrays default to []. *)
Definition construct (b : body) : t :=
  mk (default "" (b_username b)) (default "" (b_email b))
     (default "" (b_password b))
     (default [] (b_thoughts b)) (default [] (b_friends b)).

(** The paths a body sets. *)
Definition paths_of (b : body) : list string :=
  sets "username" (b_username b) ++ sets "email" (b_email b) ++
  sets "password" (b_password b) ++ sets "thoughts" (b_thoughts b) ++
  sets "friends" (b_friends b).

(** The update document of [findByIdAndUpdate]: [$set] of every path of
    the body. *)
Definition apply_update (b : body) (u : t) : t :=
  mk (default (username u) (b_username b)) (default (email u) (b_email b))
     (default (password u) (b_password b))
     (default (thoughts u) (b_thoughts b)) (default (friends u) (b_friends b)).

Definition required_paths : list (string * (t → string)) :=
  [("username", username); ("email", email); ("password", password)].

(** The paths of a body whose value does not cast to the type of the
    path: none here, the body holding strings and references. *)
Definition cast_errors (b : body) : list string := [].
End userSchema.

Module thoughtSchema.
Record t := mk {
  thoughtText : string;
  createdAt : Z;
  username : string;
  reactions : list N
}.

Record body := mk_body {
  b_thoughtText : option string;
  b_createdAt : option Z;
  b_username : option string;
  b_reactions : option (list N)
}.

Definition set_reactions (v : list N) (th : t) : t :=
  mk (thoughtText th) (createdAt th) (username th) v.

(** The paths of a body whose value does not cast to the type of the
    path: [createdAt], when the number sent is no date. *)
Definition cast_errors (b : body) : list string :=
  cast_date "createdAt" (b_createdAt b).

(** [new Thought(body)], for a body that casts; [createdAt] defaults to
    [Date.now]. *)
Definition construct (now : Z) (b : body) : t :=
  mk (default "" (b_thoughtText b)) (default now (b_createdAt b))
     (default "" (b_username b)) (default [] (b_reactions b)).

Definition paths_of (b : body) : list string :=
  sets "thoughtText" (b_thoughtText b) ++ sets "createdAt" (b_createdAt b) ++
  sets "username" (b_username b) ++ sets "reactions" (b_reactions b).

(** The update document of [findByIdAndUpdate], for a body that
    casts: [$set] of every path of the body. *)
Definition apply_update (b : body) (th : t) : t :=
  mk (default (thoughtText th) (b_thoughtText b))
     (default (createdAt th) (b_createdAt b))
     (default (username th) (b_username b))
     (default (reactions th) (b_reactions b)).

Definition required_paths : list (string * (t → string)) :=
  [("thoughtText", thoughtText); ("username", username)].
End thoughtSchema.

Module reactionSchema.
Record t := mk {
  reactionBody : string;
  createdAt : Z;
  username : string
}.

Record body := mk_body {
  b_reactionBody : option string;
  b_createdAt : option Z;
  b_username : option string
}.

Definition cast_errors (b : body) : list string :=
  cast_date "createdAt" (b_createdAt b).

(** [new Reaction(body)], for a body that casts. *)
Definition construct (now : Z) (b : body) : t :=
  mk (default "" (b_reactionBody b)) (default now (b_createdAt b))
     (default "" (b_username b)).

Definition paths_of (b : body) : list string :=
  sets "reactionBody" (b_reactionBody b) ++ sets "createdAt" (b_createdAt b) ++
  sets "username" (b_username b).

Definition apply_update (b : body) (r : t) : t :=
  mk (default (reactionBody r) (b_reactionBody b))
     (default (createdAt r) (b_createdAt b))
     (default (username r) (b_username b)).

Definition required_paths : list (string * (t → string)) :=
  [("reactionBody", reactionBody); ("username", username)].
End reactionSchema.

(** ** The database, documents and errors *)

(** The three collections of [socialNetworkDB], keyed by [_id]. *)
Record DB := mkDB {
  Users : gmap N userSchema.t;
  Thoughts : gmap N thoughtSchema.t;
  Reactions : gmap N reactionSchema.t
}.

Definition set_Users (m : gmap N userSchema.t) (db : DB) : DB :=
  mkDB m (Thoughts db) (Reactions db).
Definition set_Thoughts (m : gmap N thoughtSchema.t) (db : DB) : DB :=
  mkDB (Users db) m (Reactions db).
Definition set_Reactions (m : gmap N reactionSchema.t) (db : DB) : DB :=
  mkDB (Users db) (Thoughts db) m.

(** A Mongoose document: the fields, the [_id], whether it is still to
    be inserted, and the paths modified since it was loaded. *)
Record Document (A : Type) := mkDoc {
  _id : N;
  fields : A;
  isNew : bool;
  modifiedPaths : list string
}.
Arguments mkDoc {A} _ _ _ _.
Arguments _id {A} _.
Arguments fields {A} _.
Arguments isNew {A} _.
Arguments modifiedPaths {A} _.

Definition isModified {A} (path : string) (doc : Document A) : bool :=
  bool_decide (path ∈ modifiedPaths doc).

(** What a handler's promise can reject with. *)
Inductive Error :=
| ValidationError (paths : gset string)  (* the paths of [err.errors] *)
| CastError (path : string)              (* a value of an update that does not cast *)
| DuplicateKeyError (index : string)     (* E11000 of the store *)
| DocumentNotFoundError                  (* save of a document that is gone *)
| TypeError.                             (* property read on null *)

(** What the server draws from its environment while it handles one
    request: the [ObjectId] of a document it constructs, bcrypt's salt
    and the clock. *)
Record Env := mkEnv {
  new_ObjectId : N;
  salt : string;
  Date_now : Z
}.

(** ** Responses *)

Inductive Json :=
| JNull
| JUser (id : N) (u : userSchema.t)
| JThought (id : N) (th : thoughtSchema.t)
| JReaction (id : N) (r : reactionSchema.t).

(** [res.status(c).json(v)] has body [Some v]; [res.status(c).send()]
    has none. *)
Record Response := mkResponse {
  status : nat;
  body : option Json
}.

(** ** The monad of a handler: database state and rejection *)

Definition M (A : Type) : Type := DB → DB * (Error + A).

Global Instance M_ret : MRet M := λ A x db, (db, inr x).
Global Instance M_bind : MBind M := λ A B f m db,
  match m db with
  | (db', inl e) => (db', inl e)
  | (db', inr x) => f x db'
  end.
Global Instance M_throw : MThrow Error M := λ A e db, (db, inl e).

Definition get_db : M DB := λ db, (db, inr db).
Definition modify_db (f : DB → DB) : M unit := λ db, (f db, inr tt).

(** Reading a property of a value that may be [null]. *)
Definition deref {A} (v : option A) : M A :=
  match v with
  | Some x => mret x
  | None => mthrow TypeError
  end.

(** Document validation ([validateBeforeSave]). *)
Definition validate {A} (paths : list (string * (A → string))) (doc : A) : M unit :=
  match failing paths doc with
  | [] => mret tt
  | ps => mthrow (ValidationError (list_to_set ps))
  end.

(** ** Models

    What [mongoose.model(name, schema)] gives: the collection of the
    model in the database and the schema's data. *)
Record Model (A Body : Type) := mkModel {
  collection : DB → gmap N A;
  set_collection : gmap N A → DB → DB;
  cast_errors : Body → list string;
  construct : Env → Body → A;
  paths_of : Body → list string;
  apply_update : Body → A → A;
  required_paths : list (string * (A → string));
  (* the [pre('save')] middleware of the schema *)
  pre_save : Env → Document A → M (Document A);
  (* the unique index a write of [new] under [self] would violate *)
  unique_conflict : N → option A → A → gmap N A → option string;
  to_json : N → A → Json
}.
Arguments collection {A Body} _ _.
Arguments set_collection {A Body} _ _ _.
Arguments cast_errors {A Body} _ _.
Arguments construct {A Body} _ _ _.
Arguments paths_of {A Body} _ _.
Arguments apply_update {A Body} _ _ _.
Arguments required_paths {A Body} _.
Arguments pre_save {A Body} _ _ _.
Arguments unique_conflict {A Body} _ _ _ _ _.
Arguments to_json {A Body} _ _ _.

Section Mongoose.
Context {A Body : Type} (model : Model A Body).

(** [res.json(doc)]; [null] when the query found nothing. *)
Definition json (doc : Document A) : Json := to_json model (_id doc) (fields doc).
Definition json_or_null (doc : option (Document A)) : Json :=
  match doc with
  | Some d => json d
  | None => JNull
  end.

(** A document as a query returns it. *)
Definition hydrate (id : N) (v : A) : Document A := mkDoc id v false [].

(** [Model.findById(id)]: the document, or [null]. *)
Definition findById (id : N) : M (option (Document A)) :=
  db ← get_db;
  mret (hydrate id <$> collection model db !! id).

(** [doc.save()].  Validation runs first, then the schema's
    [pre('save')] middleware, then the write: [insertOne] for a new
    document, [updateOne] of the modified paths for a loaded one (no
    write when nothing is modified).  As nothing runs between the load
    and the save, the stored document with the modified paths replaced
    is the document in memory. *)
Definition save (env : Env) (doc : Document A) : M (Document A) :=
  validate (required_paths model) (fields doc) ;;
  doc ← pre_save model env doc;
  db ← get_db;
  let coll := collection model db in
  let stored := mkDoc (_id doc) (fields doc) false [] in
  if isNew doc then
    match coll !! _id doc with
    | Some _ => mthrow (DuplicateKeyError "_id_")
    | None =>
        match unique_conflict model (_id doc) None (fields doc) coll with
        | Some index => mthrow (DuplicateKeyError index)
        | None =>
            modify_db (set_collection model (<[_id doc := fields doc]> coll)) ;;
            mret stored
        end
    end
  else
    match modifiedPaths doc with
    | [] => mret stored
    | _ =>
        match coll !! _id doc with
        | None => mthrow DocumentNotFoundError
        | Some old =>
            match unique_conflict model (_id doc) (Some old) (fields doc) coll with
            | Some index => mthrow (DuplicateKeyError index)
            | None =>
                modify_db (set_collection model (<[_id doc := fields doc]> coll)) ;;
                mret stored
            end
        end
    end.

(** [Model.create(body)] is [new Model(body).save()].  A value that
    does not cast is recorded by [new Model(body)] and reported by the
    validation of [save], together with the required paths that fail,
    before anything else is done. *)
Definition create (env : Env) (b : Body) : M (Document A) :=
  match cast_errors model b with
  | [] =>
      save env (mkDoc (new_ObjectId env) (construct model env b) true (paths_of model b))
  | ps =>
      mthrow (ValidationError
                (list_to_set
                   (ps ++ failing (required_paths model) (construct model env b))))
  end.

(** [Model.findByIdAndUpdate(id, body, { new: true })]: the update is
    cast, which throws at the first value that does not cast, and then
    sent as one [findOneAndUpdate] of the store.  No document middleware
    and no validators run; nothing is inserted when [id] is absent; the
    document after the update is returned. *)
Definition findByIdAndUpdate (id : N) (b : Body) : M (option (Document A)) :=
  match cast_errors model b with
  | p :: _ => mthrow (CastError p)
  | [] =>
      db ← get_db;
      let coll := collection model db in
      match coll !! id with
      | None => mret None
      | Some old =>
          let new := apply_update model b old in
          match unique_conflict model id (Some old) new coll with
          | Some index => mthrow (DuplicateKeyError index)
          | None =>
              modify_db (set_collection model (<[id := new]> coll)) ;;
              mret (Some (hydrate id new))
          end
      end
  end.

(** [Model.findByIdAndDelete(id)]. *)
Definition findByIdAndDelete (id : N) : M (option (Document A)) :=
  db ← get_db;
  let coll := collection model db in
  modify_db (set_collection model (delete id coll)) ;;
  mret (hydrate id <$> coll !! id).

(** [Model.find()]: every document of the collection, once.  The
    order is the store's; here it is the order in which the collection
    enumerates its ids. *)
Definition find : M (list (Document A)) :=
  db ← get_db;
  mret ((λ kv, hydrate kv.1 kv.2) <$> map_to_list (collection model db)).
End Mongoose.

(** Array paths of a document: [doc.path.push(v)] appends [v];
    [doc.path.pull(v)] removes every element equal to [v].  Both mark the
    path modified. *)
Definition array_push {A} (path : string) (get : A → list N) (set : list N → A → A)
    (v : N) (doc : Document A) : Document A :=
  mkDoc (_id doc) (set (get (fields doc) ++ [v]) (fields doc)) (isNew doc)
        (path :: modifiedPaths doc).

Definition array_pull {A} (path : string) (get : A → list N) (set : list N → A → A)
    (v : N) (doc : Document A) : Document A :=
  mkDoc (_id doc) (set (filter (λ x, x ≠ v) (get (fields doc))) (fields doc)) (isNew doc)
        (path :: modifiedPaths doc).

(** [query.populate(path)] on an array of references into [coll]:
    each reference is replaced by the document it names, in the order
    of the array; a reference that names no document is left out. *)
Definition populate {B} (coll : gmap N B) (refs : list N) : list (N * B) :=
  omap (λ id, (id,.) <$> coll !! id) refs.

(** Documents as the two listings send them: the paths of the schema,
    the populated arrays in place of the references. *)
Module populated.
Record user := mk_user {
  user_id : N;
  username : string;
  email : string;
  password : string;
  thoughts : list (N * thoughtSchema.t);
  friends : list (N * userSchema.t)
}.

Record thought := mk_thought {
  thought_id : N;
  thoughtText : string;
  createdAt : Z;
  thought_username : string;
  reactions : list (N * reactionSchema.t)
}.
End populated.

(** [res.json(docs)] for an array of documents. *)
Record Listing (A : Type) := mkListing {
  listing_status : nat;
  listing_body : list A
}.
Arguments mkListing {A} _ _.
Arguments listing_status {A} _.
Arguments listing_body {A} _.

(** The state of the database that the properties are about: no two
    users have the same email; every reaction has its required paths. *)
Definition unique_emails (db : DB) : Prop :=
  ∀ i j u v, Users db !! i = Some u → Users db !! j = Some v →
             userSchema.email u = userSchema.email v → i = j.

Definition reactions_valid (db : DB) : Prop :=
  ∀ i r, Reactions db !! i = Some r → failing reactionSchema.required_paths r = [].

(** ** Strings of the [Authorization] header *)

(** [s.split(sep)] for a one-character separator: the pieces between the
    separators, empty pieces included; never the empty array. *)
Fixpoint split (sep : Ascii.ascii) (s : string) : list string :=
  match s with
  | EmptyString => [EmptyString]
  | String c s' =>
      if bool_decide (c = sep) then EmptyString :: split sep s'
      else match split sep s' with
           | w :: ws => String c w :: ws
           | [] => [String c EmptyString]
           end
  end.

(** An outcome that tells the client that the id was not found: a
    rejection with a not-found error, or the status 404. *)
Definition not_found (outcome : Error + Response) : bool :=
  match outcome with
  | inl DocumentNotFoundError => true
  | inl _ => false
  | inr res => bool_decide (status res = 404%nat)
  end.

(** ** Authentication middleware *)

(** [authHeader && authHeader.split(' ')[1]]: [None] is [undefined].
    The empty string is falsy, so [&&] yields it as it is. *)
Definition bearer_token (authHeader : option string) : option string :=
  match authHeader with
  | None => None
  | Some h => if bool_decide (h = "") then Some "" else split " "%char h !! 1%nat
  end.

Section Authentication.
(** The decoded payload of a token; [jwt.verify(token, secret, cb)]
    hands [cb] an error ([None]) or the payload;
    [process.env.JWT_SECRET]. *)
Variable Claims : Type.
Variable jwt_verify : string → option string → option Claims.
Variable JWT_SECRET : option string.

Record Request := mkRequest {
  headers : gmap string string;
  user : option Claims
}.

(** What a middleware does with a request: it answers with
    [res.sendStatus(code)] or it calls [next()], the request as it left
    it. *)
Inductive Gate :=
| SendStatus (code : nat)
| Next (req : Request).

Definition authenticateToken (req : Request) : Gate :=
  let authHeader := headers req !! "authorization" in
  let token := bearer_token authHeader in
  match token with
  | None => SendStatus 401
  | Some token =>
      match jwt_verify token JWT_SECRET with
      | None => SendStatus 403
      | Some claims => Next (mkRequest (headers req) (Some claims))
      end
  end.
End Authentication.
Arguments mkRequest {Claims} _ _.
Arguments headers {Claims} _.
Arguments user {Claims} _.
Arguments SendStatus {Claims} _.
Arguments Next {Claims} _.
Arguments authenticateToken {Claims} _ _ _.

(** ** Sample data

    One small database and the stand-ins for bcrypt and jsonwebtoken at
    which the statements below are instantiated. *)
Module Sample.
Definition hash (data : string) (rounds : nat) (salt : string) : string :=
  "$2b$" +:+ salt +:+ "$" +:+ data.

Definition verify (token : string) (secret : option string) : option string :=
  if bool_decide (token = "t0k" ∧ secret = Some "s3cret") then Some "alice" else None.

Definition alice : userSchema.t :=
  userSchema.mk "alice" "alice@x.com" "$2b$s0$pw" [3%N] [2%N].
Definition bob : userSchema.t :=
  userSchema.mk "bob" "bob@x.com" "$2b$s1$pw" [] [].
Definition post : thoughtSchema.t :=
  thoughtSchema.mk "hello" 100 "alice" [4%N].
Definition wow : reactionSchema.t :=
  reactionSchema.mk "wow" 200 "bob".

Definition db : DB :=
  mkDB {[ 1%N := alice; 2%N := bob ]} {[ 3%N := post ]} {[ 4%N := wow ]}.

Definition env : Env := mkEnv 7 "s7" 300.

Definition new_user : userSchema.body :=
  userSchema.mk_body (Some "carol") (Some "carol@x.com") (Some "p") None None.
Definition new_password : userSchema.body :=
  userSchema.mk_body None None (Some "secret") None None.
Definition new_reaction : reactionSchema.body :=
  reactionSchema.mk_body (Some "hi") None (Some "bob").

Definition secret : option string := Some "s3cret".
Definition anonymous : Request string := mkRequest ∅ None.
Definition intruder : Request string :=
  mkRequest {[ "authorization" := "Bearer f0rged" ]} None.
Definition member : Request string :=
  mkRequest {[ "authorization" := "Bearer t0k" ]} None.
Definition basic : Request string :=
  mkRequest {[ "authorization" := "Basic t0k" ]} None.

Definition no_email : userSchema.body :=
  userSchema.mk_body (Some "dave") None (Some "") None None.
Definition alice_again : userSchema.body :=
  userSchema.mk_body (Some "alice2") (Some "alice@x.com") (Some "p") None None.
Definition to_alice_email : userSchema.body :=
  userSchema.mk_body None (Some "alice@x.com") None None None.
Definition rename : userSchema.body :=
  userSchema.mk_body (Some "robert") None None None None.
Definition new_thought : thoughtSchema.body :=
  thoughtSchema.mk_body (Some "again") None (Some "bob") None.
Definition retext : thoughtSchema.body :=
  thoughtSchema.mk_body (Some "hello!") None None None.

Definition other : thoughtSchema.t :=
  thoughtSchema.mk "bye" 150 "bob" [6%N].
Definition meh : reactionSchema.t :=
  reactionSchema.mk "meh" 250 "alice".
Definition db2 : DB :=
  mkDB {[ 1%N := alice; 2%N := bob ]} {[ 3%N := post; 5%N := other ]}
       {[ 4%N := wow; 6%N := meh ]}.

(** [db2] after [PUT /thoughts/3] with an empty [thoughtText]. *)
Definition empty_text : thoughtSchema.body :=
  thoughtSchema.mk_body (Some "") None None None.
Definition emptied : thoughtSchema.t :=
  thoughtSchema.mk "" 100 "alice" [4%N].
Definition db_emptied : DB :=
  mkDB {[ 1%N := alice; 2%N := bob ]} {[ 3%N := emptied; 5%N := other ]}
       {[ 4%N := wow; 6%N := meh ]}.

Definition empty_header : Request string :=
  mkRequest {[ "authorization" := "" ]} None.

Definition no_fields : userSchema.body :=
  userSchema.mk_body None None None None None.
Definition late_thought : thoughtSchema.body :=
  thoughtSchema.mk_body (Some "late") (Some 8640000000000001%Z) (Some "bob") None.
Definition late_reaction : reactionSchema.body :=
  reactionSchema.mk_body (Some "hi") (Some 8640000000000001%Z) (Some "bob").
End Sample.

(** ** The server *)

Section Server.
(** [bcrypt.hash(data, saltRounds)] with the salt bcrypt draws. *)
Variable bcrypt_hash : string → nat → string → string.

(** [userSchema.pre('save', ...)] *)
Definition userSchema_pre_save (env : Env) (this : Document userSchema.t)
    : M (Document userSchema.t) :=
  if isModified "password" this then
    let hashed := bcrypt_hash (userSchema.password (fields this)) 10 (salt env) in
    mret (mkDoc (_id this) (userSchema.set_password hashed (fields this))
                (isNew this) (modifiedPaths this))
  else mret this.

(** [email: { unique: true }]: the index [email_1].  A write that
    leaves the key as it is does not touch the index. *)
Definition email_index (self : N) (old : option userSchema.t) (new : userSchema.t)
    (coll : gmap N userSchema.t) : option string :=
  if bool_decide (userSchema.email <$> old = Some (userSchema.email new)) then None
  else if bool_decide (map_Exists
            (λ k u, k ≠ self ∧ userSchema.email u = userSchema.email new) coll)
       then Some "email_1"
       else None.

Definition User : Model userSchema.t userSchema.body :=
  mkModel _ _ Users set_Users userSchema.cast_errors
    (λ _, userSchema.construct) userSchema.paths_of
    userSchema.apply_update userSchema.required_paths
    userSchema_pre_save email_index JUser.

Definition Thought : Model thoughtSchema.t thoughtSchema.body :=
  mkModel _ _ Thoughts set_Thoughts thoughtSchema.cast_errors
    (λ env, thoughtSchema.construct (Date_now env))
    thoughtSchema.paths_of thoughtSchema.apply_update thoughtSchema.required_paths
    (λ _ doc, mret doc) (λ _ _ _ _, None) JThought.

Definition Reaction : Model reactionSchema.t reactionSchema.body :=
  mkModel _ _ Reactions set_Reactions reactionSchema.cast_errors
    (λ env, reactionSchema.construct (Date_now env))
    reactionSchema.paths_of reactionSchema.apply_update reactionSchema.required_paths
    (λ _ doc, mret doc) (λ _ _ _ _, None) JReaction.

Definition friends_push := array_push "friends" userSchema.friends userSchema.set_friends.
Definition friends_pull := array_pull "friends" userSchema.friends userSchema.set_friends.
Definition reactions_push :=
  array_push "reactions" thoughtSchema.reactions thoughtSchema.set_reactions.
Definition reactions_pull :=
  array_pull "reactions" thoughtSchema.reactions thoughtSchema.set_reactions.

(** *** User routes *)

(** [POST /users] *)
Definition post_users (env : Env) (req_body : userSchema.body) : M Response :=
  user ← create User env req_body;
  mret (mkResponse 201 (Some (json User user))).

(** [PUT /users/:userId] *)
Definition put_users_userId (userId : N) (req_body : userSchema.body) : M Response :=
  user ← findByIdAndUpdate User userId req_body;
  mret (mkResponse 200 (Some (json_or_null User user))).

(** [DELETE /users/:userId] *)
Definition delete_users_userId (userId : N) : M Response :=
  findByIdAndDelete User userId ;;
  mret (mkResponse 204 None).

(** [POST /users/:userId/friends/:friendId] *)
Definition post_users_userId_friends_friendId (env : Env) (userId friendId : N)
    : M Response :=
  user ← findById User userId;
  user ← deref user;
  let user := friends_push friendId user in
  user ← save User env user;
  mret (mkResponse 201 (Some (json User user))).

(** [DELETE /users/:userId/friends/:friendId] *)
Definition delete_users_userId_friends_friendId (env : Env) (userId friendId : N)
    : M Response :=
  user ← findById User userId;
  user ← deref user;
  let user := friends_pull friendId user in
  save User env user ;;
  mret (mkResponse 204 None).

(** *** Thought routes *)

(** [POST /thoughts] *)
Definition post_thoughts (env : Env) (req_body : thoughtSchema.body) : M Response :=
  thought ← create Thought env req_body;
  mret (mkResponse 201 (Some (json Thought thought))).

(** [PUT /thoughts/:thoughtId] *)
Definition put_thoughts_thoughtId (thoughtId : N) (req_body : thoughtSchema.body)
    : M Response :=
  thought ← findByIdAndUpdate Thought thoughtId req_body;
  mret (mkResponse 200 (Some (json_or_null Thought thought))).

(** [DELETE /thoughts/:thoughtId] *)
Definition delete_thoughts_thoughtId (thoughtId : N) : M Response :=
  findByIdAndDelete Thought thoughtId ;;
  mret (mkResponse 204 None).

(** [POST /thoughts/:thoughtId/reactions] *)
Definition post_thoughts_thoughtId_reactions (env : Env) (thoughtId : N)
    (req_body : reactionSchema.body) : M Response :=
  thought ← findById Thought thoughtId;
  reaction ← create Reaction env req_body;
  thought ← deref thought;
  let thought := reactions_push (_id reaction) thought in
  save Thought env thought ;;
  mret (mkResponse 201 (Some (json Reaction reaction))).

(** [DELETE /thoughts/:thoughtId/reactions/:reactionId] *)
Definition delete_thoughts_thoughtId_reactions_reactionId (env : Env)
    (thoughtId reactionId : N) : M Response :=
  thought ← findById Thought thoughtId;
  thought ← deref thought;
  let thought := reactions_pull reactionId thought in
  save Thought env thought ;;
  findByIdAndDelete Reaction reactionId ;;
  mret (mkResponse 204 None).

(** *** The listings *)

Definition populate_user (db : DB) (doc : Document userSchema.t) : populated.user :=
  populated.mk_user (_id doc)
    (userSchema.username (fields doc)) (userSchema.email (fields doc))
    (userSchema.password (fields doc))
    (populate (Thoughts db) (userSchema.thoughts (fields doc)))
    (populate (Users db) (userSchema.friends (fields doc))).

Definition populate_thought (db : DB) (doc : Document thoughtSchema.t)
    : populated.thought :=
  populated.mk_thought (_id doc)
    (thoughtSchema.thoughtText (fields doc)) (thoughtSchema.createdAt (fields doc))
    (thoughtSchema.username (fields doc))
    (populate (Reactions db) (thoughtSchema.reactions (fields doc))).

(** [GET /users]: [User.find().populate('thoughts').populate('friends')] *)
Definition get_users : M (Listing populated.user) :=
  users ← find User;
  db ← get_db;
  mret (mkListing 200 (populate_user db <$> users)).

(** [GET /thoughts]: [Thought.find().populate('reactions')] *)
Definition get_thoughts : M (Listing populated.thought) :=
  thoughts ← find Thought;
  db ← get_db;
  mret (mkListing 200 (populate_thought db <$> thoughts)).

(** *** The routes that write

    What [app.route], [app.post] and [app.delete] register apart from
    the two listings: a request is its route with the path parameters
    and the body. *)
Inductive Route :=
| POST_users (req_body : userSchema.body)
| PUT_users (userId : N) (req_body : userSchema.body)
| DELETE_users (userId : N)
| POST_friends (userId friendId : N)
| DELETE_friends (userId friendId : N)
| POST_thoughts (req_body : thoughtSchema.body)
| PUT_thoughts (thoughtId : N) (req_body : thoughtSchema.body)
| DELETE_thoughts (thoughtId : N)
| POST_reactions (thoughtId : N) (req_body : reactionSchema.body)
| DELETE_reactions (thoughtId reactionId : N).

Definition handle (env : Env) (r : Route) : M Response :=
  match r with
  | POST_users b => post_users env b
  | PUT_users userId b => put_users_userId userId b
  | DELETE_users userId => delete_users_userId userId
  | POST_friends userId friendId => post_users_userId_friends_friendId env userId friendId
  | DELETE_friends userId friendId =>
      delete_users_userId_friends_friendId env userId friendId
  | POST_thoughts b => post_thoughts env b
  | PUT_thoughts thoughtId b => put_thoughts_thoughtId thoughtId b
  | DELETE_thoughts thoughtId => delete_thoughts_thoughtId thoughtId
  | POST_reactions thoughtId b => post_thoughts_thoughtId_reactions env thoughtId b
  | DELETE_reactions thoughtId reactionId =>
      delete_thoughts_thoughtId_reactions_reactionId env thoughtId reactionId
  end.

(** Requests served one after the other, each with what the server
    draws from its environment for it.  A handler that rejects leaves
    the database as it was when it rejected. *)
Fixpoint serve (reqs : list (Env * Route)) (db : DB) : DB :=
  match reqs with
  | [] => db
  | (env, r) :: reqs => serve reqs (handle env r db).1
  end.

(** ** Properties *)

(** *** Running the monad *)

Lemma bind_inr {A B} (m : M A) (f : A → M B) db db' x :
  m db = (db', inr x) → (m ≫= f) db = f x db'.
Proof. intros Hm. unfold mbind, M_bind. by rewrite Hm. Qed.

Lemma bind_inl {A B} (m : M A) (f : A → M B) db db' e :
  m db = (db', inl e) → (m ≫= f) db = (db', inl e).
Proof. intros Hm. unfold mbind, M_bind. by rewrite Hm. Qed.

Lemma bind_inv {A B} (m : M A) (f : A → M B) db db' y :
  (m ≫= f) db = (db', inr y) →
  ∃ db1 x, m db = (db1, inr x) ∧ f x db1 = (db', inr y).
Proof.
  unfold mbind, M_bind. destruct (m db) as [db1 [e|x]]; [done|]. eauto.
Qed.

Lemma DB_eta db : mkDB (Users db) (Thoughts db) (Reactions db) = db.
Proof. by destruct db. Qed.

(** *** The Mongoose operations *)

Section Queries.
Context {A Body : Type} (model : Model A Body).

Lemma findById_run id db :
  findById model id db = (db, inr (hydrate id <$> collection model db !! id)).
Proof. done. Qed.

Lemma findByIdAndDelete_run id db :
  findByIdAndDelete model id db =
  (set_collection model (delete id (collection model db)) db,
   inr (hydrate id <$> collection model db !! id)).
Proof. done. Qed.

Lemma findByIdAndUpdate_absent id b db :
  cast_errors model b = [] →
  collection model db !! id = None →
  findByIdAndUpdate model id b db = (db, inr None).
Proof.
  intros Hcast Hid. unfold findByIdAndUpdate. rewrite Hcast.
  rewrite (bind_inr _ _ db db db) by done. by rewrite Hid.
Qed.

Lemma findByIdAndUpdate_present id b db old :
  cast_errors model b = [] →
  collection model db !! id = Some old →
  unique_conflict model id (Some old) (apply_update model b old)
    (collection model db) = None →
  findByIdAndUpdate model id b db =
    (set_collection model
       (<[id := apply_update model b old]> (collection model db)) db,
     inr (Some (hydrate id (apply_update model b old)))).
Proof.
  intros Hcast Hid Huniq. unfold findByIdAndUpdate. rewrite Hcast.
  rewrite (bind_inr _ _ db db db) by done. rewrite Hid, Huniq.
  by erewrite bind_inr by done.
Qed.

(** An update with a value that does not cast is not sent. *)
Lemma findByIdAndUpdate_cast id b db p ps :
  cast_errors model b = p :: ps →
  findByIdAndUpdate model id b db = (db, inl (CastError p)).
Proof. intros Hcast. unfold findByIdAndUpdate. by rewrite Hcast. Qed.

Lemma create_casts env b :
  cast_errors model b = [] →
  create model env b =
    save model env
      (mkDoc (new_ObjectId env) (construct model env b) true (paths_of model b)).
Proof. intros Hcast. unfold create. by rewrite Hcast. Qed.

(** A document with a value that does not cast is not saved. *)
Lemma create_cast env b db p ps :
  cast_errors model b = p :: ps →
  create model env b db =
    (db, inl (ValidationError
                (list_to_set
                   (cast_errors model b ++
                    failing (required_paths model) (construct model env b))))).
Proof. intros Hcast. unfold create. by rewrite Hcast. Qed.

Lemma validate_ok (doc : A) db :
  failing (required_paths model) doc = [] →
  validate (required_paths model) doc db = (db, inr tt).
Proof. intros Hv. unfold validate. by rewrite Hv. Qed.

(** A loaded document with a modified path is written over the
    stored one. *)
Lemma save_loaded env doc doc' old db :
  failing (required_paths model) (fields doc) = [] →
  pre_save model env doc db = (db, inr doc') →
  isNew doc' = false →
  modifiedPaths doc' ≠ [] →
  collection model db !! _id doc' = Some old →
  unique_conflict model (_id doc') (Some old) (fields doc') (collection model db) = None →
  save model env doc db =
    (set_collection model (<[_id doc' := fields doc']> (collection model db)) db,
     inr (mkDoc (_id doc') (fields doc') false [])).
Proof.
  intros Hv Hpre Hnew Hmod Hold Huniq. unfold save.
  rewrite (bind_inr _ _ db db tt) by by apply validate_ok.
  rewrite (bind_inr _ _ db db doc') by done.
  rewrite (bind_inr _ _ db db db) by done.
  rewrite Hnew. destruct (modifiedPaths doc'); [done|].
  by rewrite Hold, Huniq.
Qed.

(** A new document is inserted under its [_id]. *)
Lemma save_new env doc doc' db :
  failing (required_paths model) (fields doc) = [] →
  pre_save model env doc db = (db, inr doc') →
  isNew doc' = true →
  collection model db !! _id doc' = None →
  unique_conflict model (_id doc') None (fields doc') (collection model db) = None →
  save model env doc db =
    (set_collection model (<[_id doc' := fields doc']> (collection model db)) db,
     inr (mkDoc (_id doc') (fields doc') false [])).
Proof.
  intros Hv Hpre Hnew Hfree Huniq. unfold save.
  rewrite (bind_inr _ _ db db tt) by by apply validate_ok.
  rewrite (bind_inr _ _ db db doc') by done.
  rewrite (bind_inr _ _ db db db) by done.
  by rewrite Hnew, Hfree, Huniq.
Qed.

(** A new document whose [_id] is taken is not inserted. *)
Lemma save_new_taken env doc doc' old db :
  failing (required_paths model) (fields doc) = [] →
  pre_save model env doc db = (db, inr doc') →
  isNew doc' = true →
  collection model db !! _id doc' = Some old →
  save model env doc db = (db, inl (DuplicateKeyError "_id_")).
Proof.
  intros Hv Hpre Hnew Htaken. unfold save.
  rewrite (bind_inr _ _ db db tt) by by apply validate_ok.
  rewrite (bind_inr _ _ db db doc') by done.
  rewrite (bind_inr _ _ db db db) by done.
  by rewrite Hnew, Htaken.
Qed.

(** A failed validation rejects before anything is written. *)
Lemma save_invalid env doc db :
  failing (required_paths model) (fields doc) ≠ [] →
  save model env doc db =
    (db, inl (ValidationError
                (list_to_set (failing (required_paths model) (fields doc))))).
Proof.
  intros Hv. unfold save. apply bind_inl. unfold validate.
  by destruct (failing _ _).
Qed.
End Queries.

(** *** Arrays of references *)

Lemma pull_absent (v : N) (l : list N) : v ∉ l → filter (λ x, x ≠ v) l = l.
Proof.
  induction l as [|x l IH]; [done|]. intros Hv.
  apply not_elem_of_cons in Hv as [Hx Hl].
  rewrite filter_cons_True by done. by rewrite IH.
Qed.

Lemma pull_removes (v : N) (l : list N) : v ∉ filter (λ x, x ≠ v) l.
Proof. rewrite list_elem_of_filter. by intros [? _]. Qed.

Lemma pull_push (v : N) (l : list N) :
  filter (λ x, x ≠ v) (l ++ [v]) = filter (λ x, x ≠ v) l.
Proof.
  rewrite filter_app, filter_cons_False by (intros ?; done).
  by rewrite filter_nil, app_nil_r.
Qed.

Lemma failing_set_reactions l th :
  failing thoughtSchema.required_paths (thoughtSchema.set_reactions l th) =
  failing thoughtSchema.required_paths th.
Proof. done. Qed.

Lemma failing_set_friends l u :
  failing userSchema.required_paths (userSchema.set_friends l u) =
  failing userSchema.required_paths u.
Proof. done. Qed.

Lemma set_reactions_id th :
  thoughtSchema.set_reactions (thoughtSchema.reactions th) th = th.
Proof. by destruct th. Qed.

Lemma set_friends_id u : userSchema.set_friends (userSchema.friends u) u = u.
Proof. by destruct u. Qed.

(** *** Reactions of a thought *)

(** [POST /thoughts/:thoughtId/reactions] on a thought that exists and
    passes validation, with fields that cast and are valid and an unused
    [ObjectId]. *)
Lemma post_reactions_run env thoughtId b db th :
  Thoughts db !! thoughtId = Some th →
  failing thoughtSchema.required_paths th = [] →
  reactionSchema.cast_errors b = [] →
  failing reactionSchema.required_paths (reactionSchema.construct (Date_now env) b) = [] →
  Reactions db !! new_ObjectId env = None →
  let r := reactionSchema.construct (Date_now env) b in
  let th' := thoughtSchema.set_reactions
               (thoughtSchema.reactions th ++ [new_ObjectId env]) th in
  post_thoughts_thoughtId_reactions env thoughtId b db =
    (mkDB (Users db) (<[thoughtId := th']> (Thoughts db))
          (<[new_ObjectId env := r]> (Reactions db)),
     inr (mkResponse 201 (Some (JReaction (new_ObjectId env) r)))).
Proof.
  intros Hth Hv Hcast Hb Hfree r th'. unfold post_thoughts_thoughtId_reactions.
  rewrite (bind_inr _ _ _ _ _ (findById_run Thought thoughtId db)).
  cbn [collection Thought]. rewrite Hth. cbn [fmap option_fmap option_map].
  rewrite (create_casts Reaction) by done.
  erewrite bind_inr; cycle 1.
  { by apply (save_new Reaction). }
  cbn [_id fields collection set_collection Reaction construct].
  erewrite bind_inr by done.
  erewrite bind_inr; cycle 1.
  { by apply (save_loaded Thought) with (old := th). }
  done.
Qed.

(** [DELETE /thoughts/:thoughtId/reactions/:reactionId] on a thought
    that exists and passes validation. *)
Lemma delete_reactions_run env thoughtId reactionId db th :
  Thoughts db !! thoughtId = Some th →
  failing thoughtSchema.required_paths th = [] →
  let th' := thoughtSchema.set_reactions
               (filter (λ x, x ≠ reactionId) (thoughtSchema.reactions th)) th in
  delete_thoughts_thoughtId_reactions_reactionId env thoughtId reactionId db =
    (mkDB (Users db) (<[thoughtId := th']> (Thoughts db))
          (delete reactionId (Reactions db)),
     inr (mkResponse 204 None)).
Proof.
  intros Hth Hv th'. unfold delete_thoughts_thoughtId_reactions_reactionId.
  rewrite (bind_inr _ _ _ _ _ (findById_run Thought thoughtId db)).
  cbn [collection Thought]. rewrite Hth. cbn [fmap option_fmap option_map].
  erewrite bind_inr by done.
  erewrite bind_inr; cycle 1.
  { by apply (save_loaded Thought) with (old := th). }
  erewrite bind_inr by apply findByIdAndDelete_run.
  done.
Qed.

(** C10 (as amended): on a thought that exists and has its required
    paths, removing a
    reaction id that is not among the thought's [reactions] still
    deletes the Reaction document with that id; the pull changes
    nothing, every other document is as before, and the answer is
    204. *)
Theorem remove_reaction_not_referenced env thoughtId reactionId db th :
  Thoughts db !! thoughtId = Some th →
  failing thoughtSchema.required_paths th = [] →
  reactionId ∉ thoughtSchema.reactions th →
  fields (reactions_pull reactionId (hydrate thoughtId th)) = th ∧
  delete_thoughts_thoughtId_reactions_reactionId env thoughtId reactionId db =
    (set_Reactions (delete reactionId (Reactions db)) db, inr (mkResponse 204 None)) ∧
  Reactions (delete_thoughts_thoughtId_reactions_reactionId env thoughtId reactionId db).1
    !! reactionId = None.
Proof.
  intros Hth Hv Hnotin.
  assert (fields (reactions_pull reactionId (hydrate thoughtId th)) = th) as Hpull.
  { cbn. rewrite pull_absent by done. apply set_reactions_id. }
  rewrite (delete_reactions_run _ _ _ _ th) by done.
  cbn in Hpull. rewrite Hpull, insert_id by done.
  split_and!; [done|by destruct db|]. cbn. apply lookup_delete_eq.
Qed.

(** C7: [DELETE /thoughts/:thoughtId] deletes the Thought document and
    nothing else: the reactions (and users) collections are as before,
    and every Reaction the thought referenced is still found by its
    id. *)
Theorem delete_thought_keeps_reactions thoughtId db th r doc :
  Thoughts db !! thoughtId = Some th →
  r ∈ thoughtSchema.reactions th →
  Reactions db !! r = Some doc →
  let res := delete_thoughts_thoughtId thoughtId db in
  res.2 = inr (mkResponse 204 None) ∧
  Thoughts res.1 = delete thoughtId (Thoughts db) ∧
  Reactions res.1 = Reactions db ∧
  Users res.1 = Users db ∧
  findById Reaction r res.1 = (res.1, inr (Some (hydrate r doc))).
Proof.
  intros _ _ Hdoc res. subst res. unfold delete_thoughts_thoughtId.
  erewrite bind_inr by apply findByIdAndDelete_run.
  cbn [fst snd mret M_ret collection set_collection Thought set_Thoughts
       Thoughts Reactions Users].
  rewrite findById_run. cbn. by rewrite Hdoc.
Qed.

(** C9 (as amended): when [thoughtId] is absent, adding a reaction with
    valid fields (a [reactionBody] and a [username] that are not empty,
    a [createdAt] that is a date when one is sent) and an unused
    [ObjectId] creates the Reaction and
    then rejects with the [TypeError] of reading [reactions] of [null];
    the outcome is not a not-found error, and the thoughts collection
    is unchanged.  When [thoughtId] is present (and the thought passes
    validation), it creates the Reaction, appends its id at the end of
    the thought's [reactions] and answers 201. *)
Theorem add_reaction_absent_present env thoughtId b db :
  reactionSchema.cast_errors b = [] →
  failing reactionSchema.required_paths
    (reactionSchema.construct (Date_now env) b) = [] →
  Reactions db !! new_ObjectId env = None →
  let r := reactionSchema.construct (Date_now env) b in
  let res := post_thoughts_thoughtId_reactions env thoughtId b db in
  (Thoughts db !! thoughtId = None →
     res = (set_Reactions (<[new_ObjectId env := r]> (Reactions db)) db, inl TypeError) ∧
     not_found res.2 = false ∧
     Thoughts res.1 = Thoughts db) ∧
  (∀ th, Thoughts db !! thoughtId = Some th →
     failing thoughtSchema.required_paths th = [] →
     res.2 = inr (mkResponse 201 (Some (JReaction (new_ObjectId env) r))) ∧
     Reactions res.1 !! new_ObjectId env = Some r ∧
     Thoughts res.1 !! thoughtId =
       Some (thoughtSchema.set_reactions
               (thoughtSchema.reactions th ++ [new_ObjectId env]) th) ∧
     Users res.1 = Users db).
Proof.
  intros Hcast Hb Hfree r res. split.
  - intros Habsent.
    assert (res = (set_Reactions (<[new_ObjectId env := r]> (Reactions db)) db,
                   inl TypeError)) as ->; [|done].
    subst res. unfold post_thoughts_thoughtId_reactions.
    rewrite (bind_inr _ _ _ _ _ (findById_run Thought thoughtId db)).
    cbn [collection Thought]. rewrite Habsent. cbn [fmap option_fmap option_map].
    rewrite (create_casts Reaction) by done.
    erewrite bind_inr; cycle 1.
    { by apply (save_new Reaction). }
    by erewrite bind_inl.
  - intros th Hth Hv. subst res.
    rewrite (post_reactions_run _ _ _ _ th) by done.
    cbn [fst snd Users Thoughts Reactions].
    by rewrite !lookup_insert_eq.
Qed.

(** *** The password hook *)

Lemma pre_save_modified env this db :
  isModified "password" this = true →
  userSchema_pre_save env this db =
    (db, inr (mkDoc (_id this)
                (userSchema.set_password
                   (bcrypt_hash (userSchema.password (fields this)) 10 (salt env))
                   (fields this))
                (isNew this) (modifiedPaths this))).
Proof. intros Hm. unfold userSchema_pre_save. by rewrite Hm. Qed.

Lemma pre_save_unmodified env this db :
  isModified "password" this = false →
  userSchema_pre_save env this db = (db, inr this).
Proof. intros Hm. unfold userSchema_pre_save. by rewrite Hm. Qed.

Lemma email_index_same_key self old new coll :
  userSchema.email old = userSchema.email new →
  email_index self (Some old) new coll = None.
Proof.
  intros He. unfold email_index. rewrite bool_decide_eq_true_2; [done|].
  cbn. by rewrite He.
Qed.

(** *** Friends of a user *)

(** [POST /users/:userId/friends/:friendId] on a user that exists and
    passes validation: the password is not among the modified paths,
    and is stored as it was. *)
Lemma post_friends_run env userId friendId db u :
  Users db !! userId = Some u →
  failing userSchema.required_paths u = [] →
  let u' := userSchema.set_friends (userSchema.friends u ++ [friendId]) u in
  post_users_userId_friends_friendId env userId friendId db =
    (set_Users (<[userId := u']> (Users db)) db,
     inr (mkResponse 201 (Some (JUser userId u')))).
Proof.
  intros Hu Hv u'. unfold post_users_userId_friends_friendId.
  rewrite (bind_inr _ _ _ _ _ (findById_run User userId db)).
  cbn [collection User]. rewrite Hu. cbn [fmap option_fmap option_map].
  erewrite bind_inr by done.
  erewrite bind_inr; cycle 1.
  { apply (save_loaded User) with (old := u) (doc' := friends_push friendId (hydrate userId u));
      [done|by apply pre_save_unmodified|done|done|done|].
    by apply email_index_same_key. }
  done.
Qed.

(** [DELETE /users/:userId/friends/:friendId], likewise. *)
Lemma delete_friends_run env userId friendId db u :
  Users db !! userId = Some u →
  failing userSchema.required_paths u = [] →
  let u' := userSchema.set_friends
              (filter (λ x, x ≠ friendId) (userSchema.friends u)) u in
  delete_users_userId_friends_friendId env userId friendId db =
    (set_Users (<[userId := u']> (Users db)) db, inr (mkResponse 204 None)).
Proof.
  intros Hu Hv u'. unfold delete_users_userId_friends_friendId.
  rewrite (bind_inr _ _ _ _ _ (findById_run User userId db)).
  cbn [collection User]. rewrite Hu. cbn [fmap option_fmap option_map].
  erewrite bind_inr by done.
  erewrite bind_inr; cycle 1.
  { apply (save_loaded User) with (old := u) (doc' := friends_pull friendId (hydrate userId u));
      [done|by apply pre_save_unmodified|done|done|done|].
    by apply email_index_same_key. }
  done.
Qed.

(** An update that does not touch the password leaves the stored
    hash as it is. *)
Lemma post_friends_keeps_password env userId friendId db u :
  Users db !! userId = Some u →
  failing userSchema.required_paths u = [] →
  (userSchema.password <$>
     Users (post_users_userId_friends_friendId env userId friendId db).1 !! userId)
  = Some (userSchema.password u).
Proof.
  intros Hu Hv. rewrite (post_friends_run _ _ _ _ u) by done.
  cbn [fst Users set_Users]. by rewrite lookup_insert_eq.
Qed.

(** *** Creating and updating users *)

(** C3 (as amended): [PUT /users/:userId] with an id that is not in
    the users collection answers 200 with the body [null], which is
    not a not-found outcome; no document is created or modified. *)
Theorem put_users_unknown_id userId b db :
  Users db !! userId = None →
  put_users_userId userId b db = (db, inr (mkResponse 200 (Some JNull))) ∧
  not_found (put_users_userId userId b db).2 = false.
Proof.
  intros Hid.
  assert (put_users_userId userId b db = (db, inr (mkResponse 200 (Some JNull))))
    as ->; [|done].
  unfold put_users_userId.
  by erewrite bind_inr by by apply (findByIdAndUpdate_absent User).
Qed.

(** C1 (where the code departs from it): [PUT /users/:userId] with a
    body that sets only [password] stores the password exactly as it
    was sent, whatever [bcrypt.hash] would make of it: the update does
    not go through [userSchema.pre('save')]. *)
Theorem put_users_stores_password_as_sent userId p db u :
  Users db !! userId = Some u →
  let b := userSchema.mk_body None None (Some p) None None in
  let res := put_users_userId userId b db in
  res.2 = inr (mkResponse 200 (Some (JUser userId (userSchema.set_password p u)))) ∧
  Users res.1 !! userId = Some (userSchema.set_password p u) ∧
  (userSchema.password <$> Users res.1 !! userId) = Some p.
Proof.
  intros Hu b res. subst res.
  assert (put_users_userId userId b db =
            (set_Users (<[userId := userSchema.set_password p u]> (Users db)) db,
             inr (mkResponse 200 (Some (JUser userId (userSchema.set_password p u))))))
    as ->.
  { unfold put_users_userId.
    erewrite bind_inr; cycle 1.
    { apply (findByIdAndUpdate_present User) with (old := u); [done|done|].
      by apply email_index_same_key. }
    done. }
  cbn [fst snd Users set_Users]. by rewrite lookup_insert_eq.
Qed.

Lemma isModified_password_new id b p :
  userSchema.b_password b = Some p →
  isModified "password" (mkDoc id (userSchema.construct b) true (userSchema.paths_of b))
  = true.
Proof.
  intros Hp. apply bool_decide_eq_true_2. cbn. unfold userSchema.paths_of.
  rewrite Hp. cbn. set_solver.
Qed.

(** [POST /users] with the required fields, an unused [ObjectId] and
    an email no user has. *)
Lemma post_users_run env b p db :
  failing userSchema.required_paths (userSchema.construct b) = [] →
  userSchema.b_password b = Some p →
  Users db !! new_ObjectId env = None →
  email_index (new_ObjectId env) None
    (userSchema.set_password (bcrypt_hash p 10 (salt env)) (userSchema.construct b))
    (Users db) = None →
  let u := userSchema.set_password (bcrypt_hash p 10 (salt env))
             (userSchema.construct b) in
  post_users env b db =
    (set_Users (<[new_ObjectId env := u]> (Users db)) db,
     inr (mkResponse 201 (Some (JUser (new_ObjectId env) u)))).
Proof.
  intros Hv Hp Hfree Huniq u. unfold post_users.
  rewrite (create_casts User) by done.
  assert (userSchema.password (userSchema.construct b) = p) as Hpw.
  { cbn. by rewrite Hp. }
  erewrite bind_inr; cycle 1.
  { apply (save_new User) with
      (doc' := mkDoc (new_ObjectId env) u true (userSchema.paths_of b));
      [done| |done|done|done].
    cbn [pre_save User]. rewrite pre_save_modified
      by by eapply isModified_password_new.
    cbn [_id fields isNew modifiedPaths construct paths_of User]. by rewrite Hpw. }
  done.
Qed.

(** C2: whenever [POST /users] creates a user from a body whose
    password is [p], the stored password is [bcrypt.hash(p, 10)]; it is
    not [p] itself, as the hash of [p] is not [p].  The response, 201,
    carries the stored document. *)
Theorem post_users_stores_hash env b p db db' res :
  userSchema.b_password b = Some p →
  bcrypt_hash p 10 (salt env) ≠ p →
  post_users env b db = (db', inr res) →
  ∃ u, Users db' !! new_ObjectId env = Some u ∧
       userSchema.password u = bcrypt_hash p 10 (salt env) ∧
       userSchema.password u ≠ p ∧
       res = mkResponse 201 (Some (JUser (new_ObjectId env) u)).
Proof.
  intros Hp Hne Hrun.
  destruct (decide (failing userSchema.required_paths (userSchema.construct b) = []))
    as [Hv|Hv]; cycle 1.
  { unfold post_users in Hrun. rewrite (create_casts User) in Hrun by done.
    erewrite bind_inl in Hrun by by apply (save_invalid User). done. }
  unfold post_users in Hrun. rewrite (create_casts User) in Hrun by done.
  apply bind_inv in Hrun as (db1 & doc & Hsave & Hret).
  unfold save in Hsave.
  rewrite (bind_inr _ _ db db tt) in Hsave by by apply (validate_ok User).
  erewrite bind_inr in Hsave; cycle 1.
  { apply pre_save_modified. by eapply isModified_password_new. }
  rewrite (bind_inr _ _ db db db) in Hsave by done.
  cbn [isNew _id fields collection User unique_conflict] in Hsave.
  destruct (Users db !! new_ObjectId env) eqn:Hfree; [done|].
  destruct (email_index _ _ _ _) eqn:Huniq; [done|].
  erewrite bind_inr in Hsave by done.
  injection Hsave as <- <-. injection Hret as <- <-.
  eexists. cbn [Users set_collection User set_Users json to_json _id fields].
  rewrite lookup_insert_eq. split_and!; [done| | |done].
  - cbn. by rewrite Hp.
  - cbn. by rewrite Hp.
Qed.

(** *** Responses of the attach routes *)

Lemma post_friends_inv env userId friendId db db' res :
  post_users_userId_friends_friendId env userId friendId db = (db', inr res) →
  ∃ u, Users db !! userId = Some u ∧
       failing userSchema.required_paths u = [].
Proof.
  intros Hrun. unfold post_users_userId_friends_friendId in Hrun.
  rewrite (bind_inr _ _ _ _ _ (findById_run User userId db)) in Hrun.
  cbn [collection User] in Hrun.
  destruct (Users db !! userId) as [u|] eqn:Hu; cbn [fmap option_fmap option_map] in Hrun.
  - exists u. split; [done|].
    destruct (decide (failing userSchema.required_paths u = [])) as [|Hv]; [done|].
    erewrite bind_inr in Hrun by done.
    erewrite bind_inl in Hrun by by apply (save_invalid User). done.
  - by erewrite bind_inl in Hrun by done.
Qed.

Lemma post_reactions_inv env thoughtId b db db' res :
  post_thoughts_thoughtId_reactions env thoughtId b db = (db', inr res) →
  ∃ th, Thoughts db !! thoughtId = Some th ∧
        failing thoughtSchema.required_paths th = [] ∧
        reactionSchema.cast_errors b = [] ∧
        failing reactionSchema.required_paths
          (reactionSchema.construct (Date_now env) b) = [] ∧
        Reactions db !! new_ObjectId env = None.
Proof.
  intros Hrun. unfold post_thoughts_thoughtId_reactions in Hrun.
  rewrite (bind_inr _ _ _ _ _ (findById_run Thought thoughtId db)) in Hrun.
  cbn [collection Thought] in Hrun.
  destruct (reactionSchema.cast_errors b) as [|p ps] eqn:Hcast; cycle 1.
  { erewrite bind_inl in Hrun by by eapply (create_cast Reaction). done. }
  rewrite (create_casts Reaction) in Hrun by done.
  destruct (decide (failing reactionSchema.required_paths
                      (reactionSchema.construct (Date_now env) b) = [])) as [Hb|Hb];
    cycle 1.
  { erewrite bind_inl in Hrun by by apply (save_invalid Reaction). done. }
  destruct (Reactions db !! new_ObjectId env) as [old|] eqn:Hfree.
  { erewrite bind_inl in Hrun by by eapply (save_new_taken Reaction). done. }
  erewrite bind_inr in Hrun; cycle 1.
  { by apply (save_new Reaction). }
  destruct (Thoughts db !! thoughtId) as [th|] eqn:Hth;
    cbn [fmap option_fmap option_map] in Hrun.
  - exists th. split_and!; try done.
    destruct (decide (failing thoughtSchema.required_paths th = [])) as [|Hv]; [done|].
    erewrite bind_inr in Hrun by done.
    erewrite bind_inl in Hrun by by apply (save_invalid Thought). done.
  - by erewrite bind_inl in Hrun by done.
Qed.

(** C6 (as amended): an attach that succeeds answers 201.  For
    [POST /users/:userId/friends/:friendId] the body is the user as it
    is stored after the attach, [friendId] last among its friends.
    For [POST /thoughts/:thoughtId/reactions] the body is the Reaction
    that was created, as it is stored; the thought, which now ends
    with the reaction's id, is not what is sent. *)
Theorem attach_responds_201 env db :
  (∀ userId friendId db' res,
     post_users_userId_friends_friendId env userId friendId db = (db', inr res) →
     status res = 201%nat ∧
     ∃ u0 u, Users db !! userId = Some u0 ∧
             Users db' !! userId = Some u ∧
             userSchema.friends u = userSchema.friends u0 ++ [friendId] ∧
             body res = Some (JUser userId u)) ∧
  (∀ thoughtId b db' res,
     post_thoughts_thoughtId_reactions env thoughtId b db = (db', inr res) →
     status res = 201%nat ∧
     ∃ th0 th r, Thoughts db !! thoughtId = Some th0 ∧
                 Thoughts db' !! thoughtId = Some th ∧
                 thoughtSchema.reactions th =
                   thoughtSchema.reactions th0 ++ [new_ObjectId env] ∧
                 Reactions db' !! new_ObjectId env = Some r ∧
                 body res = Some (JReaction (new_ObjectId env) r)).
Proof.
  split.
  - intros userId friendId db' res Hrun.
    destruct (post_friends_inv _ _ _ _ _ _ Hrun) as (u0 & Hu0 & Hv).
    rewrite (post_friends_run _ _ _ _ u0) in Hrun by done.
    injection Hrun as <- <-. split; [done|].
    eexists u0, _. cbn [Users set_Users body]. rewrite lookup_insert_eq.
    by split_and!.
  - intros thoughtId b db' res Hrun.
    destruct (post_reactions_inv _ _ _ _ _ _ Hrun)
      as (th0 & Hth0 & Hv & Hcast & Hb & Hfree).
    rewrite (post_reactions_run _ _ _ _ th0) in Hrun by done.
    injection Hrun as <- <-. split; [done|].
    eexists th0, _, _. cbn [Thoughts Reactions body]. rewrite !lookup_insert_eq.
    by split_and!.
Qed.

(** *** The handlers, case by case *)

Section SaveCases.
Context {A Body : Type} (model : Model A Body).

Lemma save_eq env doc doc' db :
  pre_save model env doc db = (db, inr doc') →
  save model env doc db =
    match failing (required_paths model) (fields doc) with
    | p :: ps => (db, inl (ValidationError (list_to_set (p :: ps))))
    | [] =>
        let coll := collection model db in
        let written :=
          (set_collection model (<[_id doc' := fields doc']> coll) db,
           inr (mkDoc (_id doc') (fields doc') false [])) in
        if isNew doc' then
          match coll !! _id doc' with
          | Some _ => (db, inl (DuplicateKeyError "_id_"))
          | None =>
              match unique_conflict model (_id doc') None (fields doc') coll with
              | Some index => (db, inl (DuplicateKeyError index))
              | None => written
              end
          end
        else
          match modifiedPaths doc' with
          | [] => (db, inr (mkDoc (_id doc') (fields doc') false []))
          | _ :: _ =>
              match coll !! _id doc' with
              | None => (db, inl DocumentNotFoundError)
              | Some old =>
                  match unique_conflict model (_id doc') (Some old) (fields doc') coll with
                  | Some index => (db, inl (DuplicateKeyError index))
                  | None => written
                  end
              end
          end
    end.
Proof.
  intros Hpre.
  destruct (failing (required_paths model) (fields doc)) as [|p ps] eqn:Hv.
  - unfold save.
    rewrite (bind_inr _ _ db db tt) by by apply validate_ok.
    rewrite (bind_inr _ _ db db doc') by done.
    rewrite (bind_inr _ _ db db db) by done.
    cbn zeta. repeat case_match; try done.
  - rewrite save_invalid by by rewrite Hv. by rewrite Hv.
Qed.
End SaveCases.
Lemma bind_run {A B} (m : M A) (f : A → M B) db :
  (m ≫= f) db =
    match m db with
    | (db', inl e) => (db', inl e)
    | (db', inr x) => f x db'
    end.
Proof. done. Qed.

Ltac model_cbn :=
  cbn [fields _id isNew modifiedPaths construct paths_of collection set_collection
       required_paths unique_conflict apply_update cast_errors User Thought Reaction
       friends_push friends_pull reactions_push reactions_pull array_push array_pull
       hydrate].

Lemma failing_nil_required {A} (paths : list (string * (A → string))) (doc : A) p :
  failing paths doc = [] → p ∈ paths → p.2 doc ≠ "".
Proof.
  unfold failing. intros Hnil Hp Hempty.
  apply fmap_nil_inv in Hnil.
  assert (p ∈ filter (λ p, required (p.2 doc) = false) paths) as Hin.
  { apply list_elem_of_filter. split; [|done]. unfold required. rewrite Hempty. done. }
  rewrite Hnil in Hin. by apply elem_of_nil in Hin.
Qed.

Lemma valid_body_sets_password b :
  failing userSchema.required_paths (userSchema.construct b) = [] →
  ∃ p, userSchema.b_password b = Some p.
Proof.
  intros Hv.
  pose proof (failing_nil_required _ _ ("password", userSchema.password) Hv) as Hp.
  destruct (userSchema.b_password b) as [p|] eqn:Hb; [by eexists|].
  exfalso. apply Hp; [set_solver|]. cbn. by rewrite Hb.
Qed.

Lemma post_users_eq env b db :
  post_users env b db =
    match failing userSchema.required_paths (userSchema.construct b) with
    | p :: ps => (db, inl (ValidationError (list_to_set (p :: ps))))
    | [] =>
        let u := userSchema.set_password
                   (bcrypt_hash (userSchema.password (userSchema.construct b)) 10
                      (salt env))
                   (userSchema.construct b) in
        match Users db !! new_ObjectId env with
        | Some _ => (db, inl (DuplicateKeyError "_id_"))
        | None =>
            match email_index (new_ObjectId env) None u (Users db) with
            | Some index => (db, inl (DuplicateKeyError index))
            | None =>
                (set_Users (<[new_ObjectId env := u]> (Users db)) db,
                 inr (mkResponse 201 (Some (JUser (new_ObjectId env) u))))
            end
        end
    end.
Proof.
  unfold post_users. rewrite (create_casts User) by done.
  destruct (failing userSchema.required_paths (userSchema.construct b)) as [|p ps] eqn:Hv.
  - destruct (valid_body_sets_password b Hv) as [pw Hpw].
    rewrite bind_run. erewrite (save_eq User); cycle 1.
    { apply pre_save_modified. by eapply isModified_password_new. }
    cbn [fields _id isNew modifiedPaths construct paths_of collection set_collection
         required_paths unique_conflict User].
    rewrite Hv. cbn zeta.
    repeat case_match; simplify_eq; done.
  - rewrite bind_run, (save_invalid User) by (model_cbn; by rewrite Hv).
    model_cbn. by rewrite Hv.
Qed.

Lemma put_users_eq userId b db :
  put_users_userId userId b db =
    match Users db !! userId with
    | None => (db, inr (mkResponse 200 (Some JNull)))
    | Some old =>
        let new := userSchema.apply_update b old in
        match email_index userId (Some old) new (Users db) with
        | Some index => (db, inl (DuplicateKeyError index))
        | None =>
            (set_Users (<[userId := new]> (Users db)) db,
             inr (mkResponse 200 (Some (JUser userId new))))
        end
    end.
Proof.
  unfold put_users_userId, findByIdAndUpdate.
  unfold mbind, M_bind, get_db, modify_db, mret, M_ret, mthrow, M_throw.
  cbn [collection set_collection apply_update unique_conflict cast_errors User
       userSchema.cast_errors].
  repeat case_match; simplify_eq; done.
Qed.

Lemma put_thoughts_eq thoughtId b db :
  put_thoughts_thoughtId thoughtId b db =
    match thoughtSchema.cast_errors b with
    | p :: _ => (db, inl (CastError p))
    | [] =>
        match Thoughts db !! thoughtId with
        | None => (db, inr (mkResponse 200 (Some JNull)))
        | Some old =>
            let new := thoughtSchema.apply_update b old in
            (set_Thoughts (<[thoughtId := new]> (Thoughts db)) db,
             inr (mkResponse 200 (Some (JThought thoughtId new))))
        end
    end.
Proof.
  unfold put_thoughts_thoughtId, findByIdAndUpdate.
  unfold mbind, M_bind, get_db, modify_db, mret, M_ret, mthrow, M_throw.
  cbn [collection set_collection apply_update unique_conflict cast_errors Thought].
  repeat case_match; simplify_eq; done.
Qed.

Lemma delete_users_eq userId db :
  delete_users_userId userId db =
    (set_Users (delete userId (Users db)) db, inr (mkResponse 204 None)).
Proof. done. Qed.

Lemma delete_thoughts_eq thoughtId db :
  delete_thoughts_thoughtId thoughtId db =
    (set_Thoughts (delete thoughtId (Thoughts db)) db, inr (mkResponse 204 None)).
Proof. done. Qed.

Lemma post_friends_eq env userId friendId db :
  post_users_userId_friends_friendId env userId friendId db =
    match Users db !! userId with
    | None => (db, inl TypeError)
    | Some u =>
        match failing userSchema.required_paths u with
        | p :: ps => (db, inl (ValidationError (list_to_set (p :: ps))))
        | [] =>
            let u' := userSchema.set_friends (userSchema.friends u ++ [friendId]) u in
            (set_Users (<[userId := u']> (Users db)) db,
             inr (mkResponse 201 (Some (JUser userId u'))))
        end
    end.
Proof.
  destruct (Users db !! userId) as [u|] eqn:Hu.
  - destruct (failing userSchema.required_paths u) as [|p ps] eqn:Hv.
    + by apply post_friends_run.
    + unfold post_users_userId_friends_friendId.
      rewrite (bind_inr _ _ _ _ _ (findById_run User userId db)).
      cbn [collection User]. rewrite Hu. cbn [fmap option_fmap option_map].
      erewrite bind_inr by done.
      rewrite bind_run, (save_invalid User)
        by (model_cbn; by rewrite failing_set_friends, Hv).
      model_cbn. by rewrite failing_set_friends, Hv.
  - unfold post_users_userId_friends_friendId.
    rewrite (bind_inr _ _ _ _ _ (findById_run User userId db)).
    cbn [collection User]. rewrite Hu. by erewrite bind_inl.
Qed.

Lemma delete_friends_eq env userId friendId db :
  delete_users_userId_friends_friendId env userId friendId db =
    match Users db !! userId with
    | None => (db, inl TypeError)
    | Some u =>
        match failing userSchema.required_paths u with
        | p :: ps => (db, inl (ValidationError (list_to_set (p :: ps))))
        | [] =>
            let u' := userSchema.set_friends
                        (filter (λ x, x ≠ friendId) (userSchema.friends u)) u in
            (set_Users (<[userId := u']> (Users db)) db, inr (mkResponse 204 None))
        end
    end.
Proof.
  destruct (Users db !! userId) as [u|] eqn:Hu.
  - destruct (failing userSchema.required_paths u) as [|p ps] eqn:Hv.
    + by apply delete_friends_run.
    + unfold delete_users_userId_friends_friendId.
      rewrite (bind_inr _ _ _ _ _ (findById_run User userId db)).
      cbn [collection User]. rewrite Hu. cbn [fmap option_fmap option_map].
      erewrite bind_inr by done.
      rewrite bind_run, (save_invalid User)
        by (model_cbn; by rewrite failing_set_friends, Hv).
      model_cbn. by rewrite failing_set_friends, Hv.
  - unfold delete_users_userId_friends_friendId.
    rewrite (bind_inr _ _ _ _ _ (findById_run User userId db)).
    cbn [collection User]. rewrite Hu. by erewrite bind_inl.
Qed.

Lemma post_thoughts_eq env b db :
  post_thoughts env b db =
    let th := thoughtSchema.construct (Date_now env) b in
    match thoughtSchema.cast_errors b with
    | c :: cs =>
        (db, inl (ValidationError
                    (list_to_set
                       ((c :: cs) ++ failing thoughtSchema.required_paths th))))
    | [] =>
        match failing thoughtSchema.required_paths th with
        | p :: ps => (db, inl (ValidationError (list_to_set (p :: ps))))
        | [] =>
            match Thoughts db !! new_ObjectId env with
            | Some _ => (db, inl (DuplicateKeyError "_id_"))
            | None =>
                (set_Thoughts (<[new_ObjectId env := th]> (Thoughts db)) db,
                 inr (mkResponse 201 (Some (JThought (new_ObjectId env) th))))
            end
        end
    end.
Proof.
  unfold post_thoughts. cbn zeta.
  destruct (thoughtSchema.cast_errors b) as [|c cs] eqn:Hcast; cycle 1.
  { rewrite bind_run. erewrite (create_cast Thought) by done.
    model_cbn. by rewrite Hcast. }
  rewrite (create_casts Thought) by done.
  rewrite bind_run. erewrite (save_eq Thought) by done.
  cbn [fields _id isNew modifiedPaths construct paths_of collection set_collection
       required_paths unique_conflict Thought].
  repeat case_match; simplify_eq; done.
Qed.

Lemma post_reactions_eq env thoughtId b db :
  post_thoughts_thoughtId_reactions env thoughtId b db =
    let r := reactionSchema.construct (Date_now env) b in
    match reactionSchema.cast_errors b with
    | c :: cs =>
        (db, inl (ValidationError
                    (list_to_set
                       ((c :: cs) ++ failing reactionSchema.required_paths r))))
    | [] =>
    match failing reactionSchema.required_paths r with
    | p :: ps => (db, inl (ValidationError (list_to_set (p :: ps))))
    | [] =>
        match Reactions db !! new_ObjectId env with
        | Some _ => (db, inl (DuplicateKeyError "_id_"))
        | None =>
            let db1 := set_Reactions (<[new_ObjectId env := r]> (Reactions db)) db in
            match Thoughts db !! thoughtId with
            | None => (db1, inl TypeError)
            | Some th =>
                match failing thoughtSchema.required_paths th with
                | p :: ps => (db1, inl (ValidationError (list_to_set (p :: ps))))
                | [] =>
                    let th' := thoughtSchema.set_reactions
                                 (thoughtSchema.reactions th ++ [new_ObjectId env]) th in
                    (set_Thoughts (<[thoughtId := th']> (Thoughts db)) db1,
                     inr (mkResponse 201 (Some (JReaction (new_ObjectId env) r))))
                end
            end
        end
    end
    end.
Proof.
  unfold post_thoughts_thoughtId_reactions. cbn zeta.
  rewrite (bind_inr _ _ _ _ _ (findById_run Thought thoughtId db)).
  destruct (reactionSchema.cast_errors b) as [|c cs] eqn:Hcast; cycle 1.
  { rewrite bind_run. erewrite (create_cast Reaction) by done.
    model_cbn. by rewrite Hcast. }
  rewrite (create_casts Reaction) by done.
  rewrite bind_run. erewrite (save_eq Reaction) by done.
  cbn [fields _id isNew modifiedPaths construct paths_of collection set_collection
       required_paths unique_conflict Reaction Thought].
  destruct (failing reactionSchema.required_paths _) as [|p ps] eqn:Hb; [|done].
  destruct (Reactions db !! new_ObjectId env) eqn:Hfree; [done|].
  destruct (Thoughts db !! thoughtId) as [th|] eqn:Hth;
    cbn [fmap option_fmap option_map]; [|by erewrite bind_inl].
  erewrite bind_inr by done.
  rewrite bind_run. erewrite (save_eq Thought) by done.
  cbn [fields _id isNew modifiedPaths collection set_collection required_paths
       unique_conflict Thought reactions_push array_push hydrate
       Thoughts set_Reactions].
  rewrite failing_set_reactions, Hth.
  repeat case_match; simplify_eq; done.
Qed.

Lemma delete_reactions_eq env thoughtId reactionId db :
  delete_thoughts_thoughtId_reactions_reactionId env thoughtId reactionId db =
    match Thoughts db !! thoughtId with
    | None => (db, inl TypeError)
    | Some th =>
        match failing thoughtSchema.required_paths th with
        | p :: ps => (db, inl (ValidationError (list_to_set (p :: ps))))
        | [] =>
            let th' := thoughtSchema.set_reactions
                         (filter (λ x, x ≠ reactionId) (thoughtSchema.reactions th)) th in
            (mkDB (Users db) (<[thoughtId := th']> (Thoughts db))
                  (delete reactionId (Reactions db)),
             inr (mkResponse 204 None))
        end
    end.
Proof.
  destruct (Thoughts db !! thoughtId) as [th|] eqn:Hth.
  - destruct (failing thoughtSchema.required_paths th) as [|p ps] eqn:Hv.
    + by apply delete_reactions_run.
    + unfold delete_thoughts_thoughtId_reactions_reactionId.
      rewrite (bind_inr _ _ _ _ _ (findById_run Thought thoughtId db)).
      cbn [collection Thought]. rewrite Hth. cbn [fmap option_fmap option_map].
      erewrite bind_inr by done.
      rewrite bind_run, (save_invalid Thought)
        by (model_cbn; by rewrite failing_set_reactions, Hv).
      model_cbn. by rewrite failing_set_reactions, Hv.
  - unfold delete_thoughts_thoughtId_reactions_reactionId.
    rewrite (bind_inr _ _ _ _ _ (findById_run Thought thoughtId db)).
    cbn [collection Thought]. rewrite Hth. by erewrite bind_inl.
Qed.
(** *** Every route at once *)

Ltac handle_cases r :=
  destruct r; cbn [handle];
  rewrite ?post_users_eq, ?put_users_eq, ?delete_users_eq, ?post_friends_eq,
    ?delete_friends_eq, ?post_thoughts_eq, ?put_thoughts_eq, ?delete_thoughts_eq,
    ?post_reactions_eq, ?delete_reactions_eq;
  cbn zeta; repeat case_match.

(** X1: No route that writes ever reports that an id was not found:
    neither status 404 nor a not-found error comes out of a handler. *)
Theorem handle_never_not_found env r db : not_found (handle env r db).2 = false.
Proof. handle_cases r; done. Qed.


(** X3: The routes under [/users] leave thoughts and reactions alone; the
    routes of thoughts leave users and reactions alone; the routes of
    reactions leave users alone. *)
Theorem handle_frame env r db :
  let db' := (handle env r db).1 in
  match r with
  | POST_users _ | PUT_users _ _ | DELETE_users _ | POST_friends _ _
  | DELETE_friends _ _ =>
      Thoughts db' = Thoughts db ∧ Reactions db' = Reactions db
  | POST_thoughts _ | PUT_thoughts _ _ | DELETE_thoughts _ =>
      Users db' = Users db ∧ Reactions db' = Reactions db
  | POST_reactions _ _ | DELETE_reactions _ _ => Users db' = Users db
  end.
Proof. handle_cases r; done. Qed.

(** X4: A stored reaction is never modified: a route inserts a reaction
    or deletes one, no route changes one. *)
Theorem handle_reactions_immutable env r db i old new :
  Reactions db !! i = Some old →
  Reactions (handle env r db).1 !! i = Some new →
  new = old.
Proof.
  intros Hold. handle_cases r; cbn; intros Hnew; simplify_map_eq; try done.
  all: try (destruct (decide (i = reactionId)); simplify_map_eq; done).
Qed.
(** *** What the served database keeps *)

Lemma email_index_None self old new coll :
  email_index self old new coll = None →
  userSchema.email <$> old = Some (userSchema.email new) ∨
  ∀ k u, coll !! k = Some u → k ≠ self →
         userSchema.email u ≠ userSchema.email new.
Proof.
  unfold email_index. case_bool_decide as Hsame; [by left|].
  case_bool_decide as Hex; [done|]. intros _. right.
  intros k u Hk Hne Hemail. apply Hex. exists k, u. done.
Qed.

Lemma unique_emails_insert (us : gmap N userSchema.t) i new :
  (∀ i j u v, us !! i = Some u → us !! j = Some v →
              userSchema.email u = userSchema.email v → i = j) →
  (∀ k u, us !! k = Some u → k ≠ i → userSchema.email u ≠ userSchema.email new) →
  ∀ k j u v, <[i := new]> us !! k = Some u → <[i := new]> us !! j = Some v →
             userSchema.email u = userSchema.email v → k = j.
Proof.
  intros Huniq Hfresh k j u v Hk Hj Hemail.
  destruct (decide (k = i)) as [->|Hki], (decide (j = i)) as [->|Hji];
    simplify_map_eq; [done| | |by eapply Huniq].
  - exfalso. by eapply Hfresh.
  - exfalso. by eapply Hfresh.
Qed.

Lemma unique_emails_same_key (us : gmap N userSchema.t) i old new :
  (∀ i j u v, us !! i = Some u → us !! j = Some v →
              userSchema.email u = userSchema.email v → i = j) →
  us !! i = Some old →
  userSchema.email new = userSchema.email old →
  ∀ k u, us !! k = Some u → k ≠ i → userSchema.email u ≠ userSchema.email new.
Proof.
  intros Huniq Hold Hsame k u Hk Hne Hemail. apply Hne.
  eapply Huniq; [done|done|]. by rewrite Hemail.
Qed.

Lemma handle_unique_emails env r db :
  unique_emails db → unique_emails (handle env r db).1.
Proof.
  unfold unique_emails. intros Huniq.
  handle_cases r; cbn [fst Users set_Users set_Thoughts set_Reactions]; try done.
  - (* POST /users *)
    apply unique_emails_insert; [done|].
    match goal with H : email_index _ _ _ _ = None |- _ =>
      apply email_index_None in H as [?|Hfresh]; [done|] end.
    intros k u Hk _. eapply Hfresh; [done|]. intros ->. simplify_eq.
  - (* PUT /users/:userId *)
    apply unique_emails_insert; [done|].
    match goal with H : email_index _ _ _ _ = None |- _ =>
      apply email_index_None in H as [Hsame|Hfresh]; [|done] end.
    eapply unique_emails_same_key; [done|done|]. by simplify_eq/=.
  - (* DELETE /users/:userId *)
    intros i j u v Hi Hj. apply lookup_delete_Some in Hi as [_ Hi].
    apply lookup_delete_Some in Hj as [_ Hj]. by eapply Huniq.
  - (* POST /users/:userId/friends/:friendId *)
    apply unique_emails_insert; [done|].
    by eapply unique_emails_same_key.
  - (* DELETE /users/:userId/friends/:friendId *)
    apply unique_emails_insert; [done|].
    by eapply unique_emails_same_key.
Qed.

Lemma handle_reactions_valid env r db :
  reactions_valid db → reactions_valid (handle env r db).1.
Proof.
  unfold reactions_valid. intros Hvalid.
  handle_cases r; cbn [fst Reactions set_Users set_Thoughts set_Reactions]; try done.
  all: intros i r Hi.
  all: try (apply lookup_delete_Some in Hi as [_ Hi]; by eapply Hvalid).
  all: destruct (decide (i = new_ObjectId env)) as [->|]; simplify_map_eq;
    [done|by eapply Hvalid].
Qed.

(** X6: However many requests the server has answered since the
    database was empty, no two users have the same email. *)
Theorem serve_unique_emails reqs : unique_emails (serve reqs (mkDB ∅ ∅ ∅)).
Proof.
  assert (∀ db, unique_emails db → unique_emails (serve reqs db)) as Hserve.
  { induction reqs as [|[env r] reqs IH]; [done|]. intros db Hdb.
    cbn [serve]. apply IH. by apply handle_unique_emails. }
  apply Hserve. intros i j u v Hi. done.
Qed.

(** X7: However many requests the server has answered since the
    database was empty, every stored reaction has a [reactionBody] and
    a [username] that are not empty. *)
Theorem serve_reactions_valid reqs i r :
  Reactions (serve reqs (mkDB ∅ ∅ ∅)) !! i = Some r →
  reactionSchema.reactionBody r ≠ "" ∧ reactionSchema.username r ≠ "".
Proof.
  assert (∀ db, reactions_valid db → reactions_valid (serve reqs db)) as Hserve.
  { induction reqs as [|[env r'] reqs IH]; [done|]. intros db Hdb.
    cbn [serve]. apply IH. by apply handle_reactions_valid. }
  intros Hi. apply Hserve in Hi; [|by intros ? ? ?].
  split.
  - apply (failing_nil_required _ _ ("reactionBody", reactionSchema.reactionBody) Hi).
    set_solver.
  - apply (failing_nil_required _ _ ("username", reactionSchema.username) Hi).
    set_solver.
Qed.
(** X5: Only [PUT /users/:userId] changes the username, the email, the
    password or the thoughts of a stored user: after any other request
    a user that is still stored has them as before. *)
Theorem handle_keeps_credentials env r db k u u' :
  (∀ userId b, r ≠ PUT_users userId b) →
  Users db !! k = Some u →
  Users (handle env r db).1 !! k = Some u' →
  userSchema.username u' = userSchema.username u ∧
  userSchema.email u' = userSchema.email u ∧
  userSchema.password u' = userSchema.password u ∧
  userSchema.thoughts u' = userSchema.thoughts u.
Proof.
  intros Hput Hu.
  assert (match r with PUT_users _ _ => False | _ => True end) as Hr.
  { destruct r; try done. by edestruct Hput. }
  clear Hput. handle_cases r; cbn; intros Hu'; simplify_map_eq; try done.
  - apply lookup_delete_Some in Hu' as [_ Hu']. by simplify_eq.
  - destruct (decide (k = userId)); by simplify_map_eq.
  - destruct (decide (k = userId)); by simplify_map_eq.
Qed.

(** *** Users: rejected and empty requests *)

(** X8: [POST /users] with a required field missing or empty is rejected
    with a [ValidationError] whose paths are exactly the required paths
    that fail, in whatever order; nothing is stored. *)
Theorem post_users_invalid env b db :
  failing userSchema.required_paths (userSchema.construct b) ≠ [] →
  ∃ paths : gset string,
    post_users env b db = (db, inl (ValidationError paths)) ∧
    (∀ p, p ∈ paths ↔
          p ∈ failing userSchema.required_paths (userSchema.construct b)) ∧
    (∀ p, p ∈ paths ↔
          (p = "username" ∧ default "" (userSchema.b_username b) = "") ∨
          (p = "email" ∧ default "" (userSchema.b_email b) = "") ∨
          (p = "password" ∧ default "" (userSchema.b_password b) = "")).
Proof.
  intros Hv.
  exists (list_to_set (failing userSchema.required_paths (userSchema.construct b))).
  split_and!.
  - rewrite post_users_eq.
    by destruct (failing userSchema.required_paths (userSchema.construct b)).
  - intros p. apply elem_of_list_to_set.
  - intros p. rewrite elem_of_list_to_set. unfold failing.
    rewrite list_elem_of_fmap. split.
    + intros ([q get] & -> & Hq). apply list_elem_of_filter in Hq as [Hreq Hq].
      unfold required in Hreq. cbn in Hreq.
      apply negb_false_iff, bool_decide_eq_true_1 in Hreq.
      unfold userSchema.required_paths in Hq.
      repeat (apply elem_of_cons in Hq as [Hq|Hq]; [simplify_eq; cbn in *; tauto|]).
      by apply elem_of_nil in Hq.
    + intros [[-> He]|[[-> He]|[-> He]]].
      * exists ("username", userSchema.username). split; [done|].
        apply list_elem_of_filter. split; [|set_solver].
        unfold required. cbn. by rewrite He.
      * exists ("email", userSchema.email). split; [done|].
        apply list_elem_of_filter. split; [|set_solver].
        unfold required. cbn. by rewrite He.
      * exists ("password", userSchema.password). split; [done|].
        apply list_elem_of_filter. split; [|set_solver].
        unfold required. cbn. by rewrite He.
Qed.

(** X9: [POST /users] with the email of a stored user is rejected with the
    duplicate-key error of the index [email_1]; the stored user and the
    rest of the database are as before. *)
Theorem post_users_duplicate_email env b db k u :
  failing userSchema.required_paths (userSchema.construct b) = [] →
  Users db !! new_ObjectId env = None →
  Users db !! k = Some u →
  userSchema.b_email b = Some (userSchema.email u) →
  post_users env b db = (db, inl (DuplicateKeyError "email_1")).
Proof.
  intros Hv Hfree Hk Hemail. rewrite post_users_eq, Hv, Hfree. cbn zeta.
  unfold email_index. rewrite bool_decide_eq_false_2 by done.
  rewrite bool_decide_eq_true_2; [done|].
  exists k, u. split; [done|]. split; [by intros ->; simplify_eq|].
  cbn. by rewrite Hemail.
Qed.

(** X10: [PUT /users/:userId] that sets the email to that of another stored
    user is rejected with the duplicate-key error of [email_1], and
    nothing is changed. *)
Theorem put_users_duplicate_email userId b db old k u :
  Users db !! userId = Some old →
  Users db !! k = Some u →
  k ≠ userId →
  userSchema.email u ≠ userSchema.email old →
  userSchema.b_email b = Some (userSchema.email u) →
  put_users_userId userId b db = (db, inl (DuplicateKeyError "email_1")).
Proof.
  intros Hold Hk Hne Hdiff Hemail. rewrite put_users_eq, Hold. cbn zeta.
  unfold email_index.
  rewrite bool_decide_eq_false_2; cycle 1.
  { cbn. rewrite Hemail. cbn. intros [= Heq]. by apply Hdiff. }
  rewrite bool_decide_eq_true_2; [done|].
  exists k, u. split; [done|]. split; [done|]. cbn. by rewrite Hemail.
Qed.

(** X11: A [PUT /users/:userId] whose body has no password leaves the
    stored password as it is, whether the update is written or
    rejected. *)
Theorem put_users_without_password userId b db old u' :
  Users db !! userId = Some old →
  userSchema.b_password b = None →
  Users (put_users_userId userId b db).1 !! userId = Some u' →
  userSchema.password u' = userSchema.password old.
Proof.
  intros Hold Hpw. rewrite put_users_eq, Hold. cbn zeta.
  case_match; cbn [fst Users set_Users]; intros Hu'; by simplify_map_eq.
Qed.

(** X12: [POST /thoughts] with a text and a username, and a [createdAt]
    that is a date when one is sent, stores the thought
    under the new id and answers 201 with it; [createdAt] is the time of
    the request unless the body gives one; no user is changed, so the
    thought is not recorded among the thoughts of its author. *)
Theorem post_thoughts_created env b db :
  thoughtSchema.cast_errors b = [] →
  failing thoughtSchema.required_paths
    (thoughtSchema.construct (Date_now env) b) = [] →
  Thoughts db !! new_ObjectId env = None →
  let th := thoughtSchema.construct (Date_now env) b in
  post_thoughts env b db =
    (set_Thoughts (<[new_ObjectId env := th]> (Thoughts db)) db,
     inr (mkResponse 201 (Some (JThought (new_ObjectId env) th)))) ∧
  thoughtSchema.createdAt th = default (Date_now env) (thoughtSchema.b_createdAt b) ∧
  thoughtSchema.reactions th = default [] (thoughtSchema.b_reactions b) ∧
  Users (post_thoughts env b db).1 = Users db.
Proof.
  intros Hcast Hv Hfree th. subst th. rewrite post_thoughts_eq. cbn zeta.
  by rewrite Hcast, Hv, Hfree.
Qed.

(** X13: [PUT /thoughts/:thoughtId] runs no validators: on a stored thought,
    with a body whose [createdAt] is a date when one is sent, the
    update sets every path of the body to the value sent, empty strings
    included, keeps the other paths, and answers 200 with the result.  An
    empty body changes nothing. *)
Theorem put_thoughts_sets_paths thoughtId b db old :
  thoughtSchema.cast_errors b = [] →
  Thoughts db !! thoughtId = Some old →
  let new := thoughtSchema.apply_update b old in
  put_thoughts_thoughtId thoughtId b db =
    (set_Thoughts (<[thoughtId := new]> (Thoughts db)) db,
     inr (mkResponse 200 (Some (JThought thoughtId new)))) ∧
  (∀ v, thoughtSchema.b_thoughtText b = Some v → thoughtSchema.thoughtText new = v) ∧
  (thoughtSchema.b_thoughtText b = None →
     thoughtSchema.thoughtText new = thoughtSchema.thoughtText old) ∧
  (∀ v, thoughtSchema.b_reactions b = Some v → thoughtSchema.reactions new = v) ∧
  (thoughtSchema.b_reactions b = None →
     thoughtSchema.reactions new = thoughtSchema.reactions old) ∧
  (b = thoughtSchema.mk_body None None None None →
     (put_thoughts_thoughtId thoughtId b db).1 = db).
Proof.
  intros Hcast Hold new. rewrite put_thoughts_eq, Hcast, Hold. subst new. cbn.
  split_and!; [done|by intros v ->|by intros ->|by intros v ->|by intros ->|].
  intros ->. cbn. destruct old; cbn. rewrite insert_id by done. by destruct db.
Qed.

(** X14: A thought whose [thoughtText] a [PUT] has emptied can no longer
    be saved: adding a reaction to it (with fields that are valid, a
    [createdAt] that is a date when one is sent, and an unused id) is
    rejected with a [ValidationError] on [thoughtText] after the reaction
    has been inserted, and removing a reaction from it is rejected with
    nothing changed. *)
Theorem emptied_thought_rejects_reactions env env' thoughtId b r db old :
  Thoughts db !! thoughtId = Some old →
  failing thoughtSchema.required_paths old = [] →
  reactionSchema.cast_errors b = [] →
  failing reactionSchema.required_paths
    (reactionSchema.construct (Date_now env) b) = [] →
  Reactions db !! new_ObjectId env = None →
  let emptied := thoughtSchema.mk_body (Some "") None None None in
  let db1 := (put_thoughts_thoughtId thoughtId emptied db).1 in
  (put_thoughts_thoughtId thoughtId emptied db).2 =
    inr (mkResponse 200
           (Some (JThought thoughtId (thoughtSchema.apply_update emptied old)))) ∧
  post_thoughts_thoughtId_reactions env thoughtId b db1 =
    (set_Reactions
       (<[new_ObjectId env := reactionSchema.construct (Date_now env) b]>
          (Reactions db1)) db1,
     inl (ValidationError {["thoughtText"]})) ∧
  delete_thoughts_thoughtId_reactions_reactionId env' thoughtId r db1 =
    (db1, inl (ValidationError {["thoughtText"]})).
Proof.
  intros Hold Hv Hcast Hb Hfree emptied db1. subst db1.
  assert (list_to_set ["thoughtText"] =@{gset string} {["thoughtText"]}) as Hset.
  { cbn. by rewrite (right_id_L ∅ (∪)). }
  rewrite put_thoughts_eq.
  change (thoughtSchema.cast_errors emptied) with (@nil string).
  rewrite Hold. cbn zeta. cbn [fst snd].
  set (new := thoughtSchema.apply_update emptied old).
  assert (failing thoughtSchema.required_paths new = ["thoughtText"]) as Hnew.
  { pose proof (failing_nil_required _ _ ("username", thoughtSchema.username) Hv) as Hu.
    unfold failing, thoughtSchema.required_paths.
    rewrite filter_cons_True by done.
    rewrite filter_cons_False; [done|].
    unfold required. cbn. rewrite bool_decide_eq_false_2; [done|].
    apply Hu. set_solver. }
  split; [done|]. split.
  - rewrite post_reactions_eq. cbn zeta. cbn [Thoughts Reactions set_Thoughts].
    by rewrite Hcast, Hb, Hfree, lookup_insert_eq, Hnew, Hset.
  - rewrite delete_reactions_eq. cbn [Thoughts set_Thoughts].
    by rewrite lookup_insert_eq, Hnew, Hset.
Qed.

(** X15: [DELETE /users/:userId] and [DELETE /thoughts/:thoughtId] with an id
    that is not stored answer 204 all the same and change nothing. *)
Theorem delete_absent_noop userId thoughtId db :
  Users db !! userId = None →
  Thoughts db !! thoughtId = None →
  delete_users_userId userId db = (db, inr (mkResponse 204 None)) ∧
  delete_thoughts_thoughtId thoughtId db = (db, inr (mkResponse 204 None)).
Proof.
  intros Hu Hth. rewrite delete_users_eq, delete_thoughts_eq, !delete_id by done.
  by destruct db.
Qed.

(** X16: [DELETE /users/:userId] deletes that user and nothing else: the
    thoughts, the reactions and the other users are as before, so a
    user who had [userId] among its friends still has the reference. *)
Theorem delete_users_no_cascade userId db k u :
  k ≠ userId →
  Users db !! k = Some u →
  let db' := (delete_users_userId userId db).1 in
  (delete_users_userId userId db).2 = inr (mkResponse 204 None) ∧
  Users db' !! userId = None ∧
  Users db' !! k = Some u ∧
  Thoughts db' = Thoughts db ∧
  Reactions db' = Reactions db.
Proof.
  intros Hne Hk db'. subst db'. rewrite delete_users_eq. cbn.
  by rewrite lookup_delete_eq, lookup_delete_ne.
Qed.

(** *** Friends: edges *)

(** X17: Removing a friend that the user does not have answers 204 and
    changes nothing. *)
Theorem remove_friend_not_member env userId friendId db u :
  Users db !! userId = Some u →
  failing userSchema.required_paths u = [] →
  friendId ∉ userSchema.friends u →
  delete_users_userId_friends_friendId env userId friendId db =
    (db, inr (mkResponse 204 None)).
Proof.
  intros Hu Hv Hnotin. rewrite delete_friends_eq, Hu, Hv. cbn zeta.
  rewrite pull_absent, set_friends_id, insert_id by done. by destruct db.
Qed.

(** X18: Both friend routes on a user that is not stored reject with the
    [TypeError] of reading [friends] of [null]; nothing is changed. *)
Theorem friends_of_absent_user env userId friendId db :
  Users db !! userId = None →
  post_users_userId_friends_friendId env userId friendId db = (db, inl TypeError) ∧
  delete_users_userId_friends_friendId env userId friendId db = (db, inl TypeError).
Proof. intros Hu. by rewrite post_friends_eq, delete_friends_eq, Hu. Qed.

(** *** The listings *)

Lemma elem_of_populate {B} (coll : gmap N B) (refs : list N) id v :
  (id, v) ∈ populate coll refs ↔ id ∈ refs ∧ coll !! id = Some v.
Proof.
  unfold populate. rewrite list_elem_of_omap. split.
  - intros (x & Hx & Hv). destruct (coll !! x) eqn:Hc; simplify_eq/=. done.
  - intros [Hid Hv]. exists id. by rewrite Hv.
Qed.

Lemma populate_app {B} (coll : gmap N B) (refs1 refs2 : list N) :
  populate coll (refs1 ++ refs2) = populate coll refs1 ++ populate coll refs2.
Proof. apply omap_app. Qed.

Lemma populate_insert_fresh {B} (coll : gmap N B) (refs : list N) id v :
  id ∉ refs → populate (<[id := v]> coll) refs = populate coll refs.
Proof.
  intros Hid. unfold populate. apply list_omap_ext, Forall2_same_length_lookup.
  split; [done|]. intros i x y Hx Hy. simplify_eq.
  rewrite lookup_insert_ne; [done|]. intros ->. apply Hid.
  by eapply list_elem_of_lookup_2.
Qed.

Lemma get_thoughts_run db :
  get_thoughts db =
    (db, inr (mkListing 200
                (populate_thought db <$>
                   ((λ kv, hydrate kv.1 kv.2) <$> map_to_list (Thoughts db))))).
Proof. done. Qed.

Lemma get_users_run db :
  get_users db =
    (db, inr (mkListing 200
                (populate_user db <$>
                   ((λ kv, hydrate kv.1 kv.2) <$> map_to_list (Users db))))).
Proof. done. Qed.

Lemma elem_of_thought_listing db e :
  e ∈ populate_thought db <$>
        ((λ kv, hydrate kv.1 kv.2) <$> map_to_list (Thoughts db)) ↔
  ∃ id th, Thoughts db !! id = Some th ∧
           e = populated.mk_thought id
                 (thoughtSchema.thoughtText th) (thoughtSchema.createdAt th)
                 (thoughtSchema.username th)
                 (populate (Reactions db) (thoughtSchema.reactions th)).
Proof.
  rewrite list_elem_of_fmap. split.
  - intros (doc & -> & Hdoc). apply list_elem_of_fmap in Hdoc as ([id th] & -> & Hkv).
    apply elem_of_map_to_list in Hkv. by exists id, th.
  - intros (id & th & Hth & ->). exists (hydrate id th). split; [done|].
    apply list_elem_of_fmap. exists (id, th). split; [done|].
    by apply elem_of_map_to_list.
Qed.

Lemma elem_of_user_listing db e :
  e ∈ populate_user db <$>
        ((λ kv, hydrate kv.1 kv.2) <$> map_to_list (Users db)) ↔
  ∃ id u, Users db !! id = Some u ∧
          e = populated.mk_user id
                (userSchema.username u) (userSchema.email u) (userSchema.password u)
                (populate (Thoughts db) (userSchema.thoughts u))
                (populate (Users db) (userSchema.friends u)).
Proof.
  rewrite list_elem_of_fmap. split.
  - intros (doc & -> & Hdoc). apply list_elem_of_fmap in Hdoc as ([id u] & -> & Hkv).
    apply elem_of_map_to_list in Hkv. by exists id, u.
  - intros (id & u & Hu & ->). exists (hydrate id u). split; [done|].
    apply list_elem_of_fmap. exists (id, u). split; [done|].
    by apply elem_of_map_to_list.
Qed.



(** X22: After [POST /thoughts/:thoughtId/reactions] has succeeded, with
    an id that the thought did not reference yet, [GET /thoughts]
    shows the thought with the reactions it showed before and the new
    reaction, with the body that was sent, last. *)
Theorem added_reaction_is_listed env thoughtId b db th db' res :
  Thoughts db !! thoughtId = Some th →
  post_thoughts_thoughtId_reactions env thoughtId b db = (db', inr res) →
  new_ObjectId env ∉ thoughtSchema.reactions th →
  ∃ l, get_thoughts db' = (db', inr (mkListing 200 l)) ∧
       populated.mk_thought thoughtId
         (thoughtSchema.thoughtText th) (thoughtSchema.createdAt th)
         (thoughtSchema.username th)
         (populate (Reactions db) (thoughtSchema.reactions th) ++
            [(new_ObjectId env, reactionSchema.construct (Date_now env) b)]) ∈ l.
Proof.
  intros Hth Hrun Hnotin.
  destruct (post_reactions_inv _ _ _ _ _ _ Hrun)
    as (th0 & Hth0 & Hv & Hcast & Hb & Hfree).
  simplify_eq. rewrite (post_reactions_run _ _ _ _ th) in Hrun by done.
  injection Hrun as <- <-.
  eexists. split; [apply get_thoughts_run|]. apply elem_of_thought_listing.
  exists thoughtId, (thoughtSchema.set_reactions
                       (thoughtSchema.reactions th ++ [new_ObjectId env]) th).
  cbn [fst Thoughts Reactions]. rewrite lookup_insert_eq. split; [done|].
  cbn [thoughtSchema.reactions thoughtSchema.set_reactions thoughtSchema.thoughtText
       thoughtSchema.createdAt thoughtSchema.username].
  rewrite populate_app, populate_insert_fresh by done.
  unfold populate at 2. cbn. by rewrite lookup_insert_eq.
Qed.

(** X23: After a user has been deleted, the users that had it as a friend
    keep the reference, but [GET /users] shows the deleted user in no
    one's friends. *)
Theorem deleted_friend_not_listed userId db k u :
  Users db !! k = Some u →
  k ≠ userId →
  userId ∈ userSchema.friends u →
  let db' := (delete_users_userId userId db).1 in
  (∃ u', Users db' !! k = Some u' ∧ userId ∈ userSchema.friends u') ∧
  ∃ l, get_users db' = (db', inr (mkListing 200 l)) ∧
       ∀ e, e ∈ l → userId ∉ (populated.friends e).*1.
Proof.
  intros Hk Hne Hfriend db'. split.
  - exists u. subst db'. rewrite delete_users_eq. cbn.
    by rewrite lookup_delete_ne.
  - eexists. split; [apply get_users_run|]. intros e He Hin.
    apply elem_of_user_listing in He as (i & v & _ & ->).
    apply list_elem_of_fmap in Hin as ([id w] & -> & Hin).
    cbn [populated.friends] in Hin. apply elem_of_populate in Hin as [_ Hin].
    subst db'. rewrite delete_users_eq in Hin. cbn in Hin.
    by rewrite lookup_delete_eq in Hin.
Qed.

(** *** Reactions and friends, added and removed *)

(** C4 (as amended): on a thought that has its required paths,
    removing a reaction that the thought references takes every
    reference to it out of the thought's [reactions] (the others stay,
    in order), deletes the Reaction document and answers 204; and
    whenever adding a reaction to a thought has succeeded, with an id
    that the thought did not reference yet, removing that id at once
    gives the thought its former [reactions] back, so their former
    length, and a fetch of the removed id finds nothing. *)
Theorem remove_reaction_deletes_reference_and_document env thoughtId db th :
  Thoughts db !! thoughtId = Some th →
  (failing thoughtSchema.required_paths th = [] →
   ∀ r, r ∈ thoughtSchema.reactions th →
     let res := delete_thoughts_thoughtId_reactions_reactionId env thoughtId r db in
     res.2 = inr (mkResponse 204 None) ∧
     Thoughts res.1 !! thoughtId =
       Some (thoughtSchema.set_reactions
               (filter (λ x, x ≠ r) (thoughtSchema.reactions th)) th) ∧
     (r ∉ filter (λ x, x ≠ r) (thoughtSchema.reactions th)) ∧
     Reactions res.1 !! r = None ∧
     findById Reaction r res.1 = (res.1, inr None)) ∧
  (∀ env' b db1 res1,
     post_thoughts_thoughtId_reactions env thoughtId b db = (db1, inr res1) →
     new_ObjectId env ∉ thoughtSchema.reactions th →
     let res := delete_thoughts_thoughtId_reactions_reactionId env' thoughtId
                  (new_ObjectId env) db1 in
     (∃ th1, Thoughts db1 !! thoughtId = Some th1 ∧
             length (thoughtSchema.reactions th1) =
             S (length (thoughtSchema.reactions th))) ∧
     res.2 = inr (mkResponse 204 None) ∧
     (∃ th2, Thoughts res.1 !! thoughtId = Some th2 ∧
             thoughtSchema.reactions th2 = thoughtSchema.reactions th ∧
             length (thoughtSchema.reactions th2) =
             length (thoughtSchema.reactions th)) ∧
     findById Reaction (new_ObjectId env) res.1 = (res.1, inr None)).
Proof.
  intros Hth. split.
  - intros Hv r _ res. subst res. rewrite (delete_reactions_run _ _ _ _ th) by done.
    cbn [fst snd Thoughts Reactions]. rewrite findById_run.
    cbn [collection Reaction Reactions].
    rewrite lookup_insert_eq, lookup_delete_eq.
    split_and!; [done|done|apply pull_removes|done|done].
  - intros env' b db1 res1 Hrun Hnotin res. subst res.
    destruct (post_reactions_inv _ _ _ _ _ _ Hrun)
      as (th0 & Hth0 & Hv & Hcast & Hb & Hfree).
    simplify_eq. rewrite (post_reactions_run _ _ _ _ th) in Hrun by done.
    injection Hrun as <- <-.
    set (th1 := thoughtSchema.set_reactions _ th).
    rewrite (delete_reactions_run _ _ _ _ th1)
      by (by cbn [Thoughts]; rewrite ?lookup_insert_eq).
    cbn [fst snd Thoughts Reactions]. rewrite findById_run.
    cbn [collection Reaction Reactions].
    rewrite lookup_delete_eq.
    split_and!; [|done| |done].
    + exists th1. split; [apply lookup_insert_eq|]. subst th1. cbn.
      rewrite length_app. cbn. lia.
    + eexists. split; [apply lookup_insert_eq|]. subst th1.
      cbn [thoughtSchema.reactions thoughtSchema.set_reactions].
      by rewrite pull_push, pull_absent.
Qed.

(** C5 (as amended): for a user that exists and a [friendId] that is
    not yet among the user's friends, adding the friend and then
    removing it leaves the user's friends, and the whole database,
    exactly as before. *)
Theorem add_then_remove_new_friend env env' userId friendId db u :
  Users db !! userId = Some u →
  friendId ∉ userSchema.friends u →
  let added := post_users_userId_friends_friendId env userId friendId db in
  let res := delete_users_userId_friends_friendId env' userId friendId added.1 in
  (userSchema.friends <$> Users res.1 !! userId) = Some (userSchema.friends u) ∧
  res.1 = db.
Proof.
  intros Hu Hnotin added res. subst added res.
  rewrite post_friends_eq, Hu.
  destruct (failing userSchema.required_paths u) as [|p ps] eqn:Hv.
  - cbn zeta. cbn [fst]. set (u1 := userSchema.set_friends _ u).
    rewrite delete_friends_eq. cbn [Users set_Users].
    rewrite lookup_insert_eq.
    assert (failing userSchema.required_paths u1 = []) as -> by done.
    cbn zeta. cbn [fst Users set_Users]. rewrite insert_insert_eq, lookup_insert_eq.
    subst u1. cbn [userSchema.friends userSchema.set_friends].
    rewrite pull_push, pull_absent by done.
    assert (userSchema.set_friends (userSchema.friends u)
              (userSchema.set_friends (userSchema.friends u ++ [friendId]) u) = u)
      as -> by by destruct u.
    rewrite insert_id by done. split; [done|by destruct db].
  - cbn [fst]. rewrite delete_friends_eq, Hu, Hv. cbn [fst]. by rewrite Hu.
Qed.

(** *** Dates that do not cast *)

(** X27: [POST /thoughts] and [POST /thoughts/:thoughtId/reactions] with
    a [createdAt] that is no date (further than 8.64e15 milliseconds
    from the epoch) are rejected with a [ValidationError] that names
    [createdAt]; nothing is stored. *)
Theorem create_rejects_bad_date env thoughtId tb rb db t :
  (t < -8640000000000000 ∨ 8640000000000000 < t)%Z →
  thoughtSchema.b_createdAt tb = Some t →
  reactionSchema.b_createdAt rb = Some t →
  (∃ paths : gset string,
     post_thoughts env tb db = (db, inl (ValidationError paths)) ∧
     "createdAt" ∈ paths) ∧
  (∃ paths : gset string,
     post_thoughts_thoughtId_reactions env thoughtId rb db
       = (db, inl (ValidationError paths)) ∧
     "createdAt" ∈ paths).
Proof.
  intros Hrange Htb Hrb.
  assert (valid_date t = false) as Hdate.
  { unfold valid_date. apply bool_decide_eq_false_2. lia. }
  split.
  - eexists. rewrite post_thoughts_eq. cbn zeta.
    unfold thoughtSchema.cast_errors, cast_date. rewrite Htb, Hdate.
    split; [done|]. apply elem_of_list_to_set, list_elem_of_here.
  - eexists. rewrite post_reactions_eq. cbn zeta.
    unfold reactionSchema.cast_errors, cast_date. rewrite Hrb, Hdate.
    split; [done|]. apply elem_of_list_to_set, list_elem_of_here.
Qed.

(** X28: [PUT /thoughts/:thoughtId] with a [createdAt] that is no date
    is rejected with a [CastError] on [createdAt], whether the thought
    is stored or not; nothing is changed. *)
Theorem put_thoughts_rejects_bad_date thoughtId b db t :
  (t < -8640000000000000 ∨ 8640000000000000 < t)%Z →
  thoughtSchema.b_createdAt b = Some t →
  put_thoughts_thoughtId thoughtId b db = (db, inl (CastError "createdAt")).
Proof.
  intros Hrange Hb. rewrite put_thoughts_eq.
  unfold thoughtSchema.cast_errors, cast_date. rewrite Hb.
  unfold valid_date. rewrite bool_decide_eq_false_2 by lia. done.
Qed.

End Server.

(** ** Properties of the authentication middleware *)

(** A header that is absent yields no token; so does a header that
    is not empty and has no space in it. *)
Lemma bearer_token_absent : bearer_token None = None.
Proof. done. Qed.

Lemma split_no_sep sep s :
  sep ∉ String.list_ascii_of_string s → split sep s = [s].
Proof.
  induction s as [|c s IH]; [done|]. cbn [String.list_ascii_of_string split].
  intros Hnotin. apply not_elem_of_cons in Hnotin as [Hc Hs].
  rewrite bool_decide_eq_false_2 by done. by rewrite IH.
Qed.

Lemma bearer_token_no_space h :
  h ≠ "" → " "%char ∉ String.list_ascii_of_string h → bearer_token (Some h) = None.
Proof.
  intros Hh Hsp. unfold bearer_token.
  rewrite bool_decide_eq_false_2 by done. by rewrite split_no_sep.
Qed.

Section AuthenticationProperties.
Context {Claims : Type}.
Variable jwt_verify : string → option string → option Claims.
Variable JWT_SECRET : option string.

(** In terms of the token expression of the middleware: a request for
    which it is undefined is answered 401; one whose token does not
    verify is answered 403; one whose token verifies goes on to the
    next handler with the decoded claims in [req.user] and its headers
    as they were. *)
Lemma authenticateToken_contract (req : Request Claims) :
  (bearer_token (headers req !! "authorization") = None →
     authenticateToken jwt_verify JWT_SECRET req = SendStatus 401) ∧
  (∀ token,
     bearer_token (headers req !! "authorization") = Some token →
     jwt_verify token JWT_SECRET = None →
     authenticateToken jwt_verify JWT_SECRET req = SendStatus 403) ∧
  (∀ token claims,
     bearer_token (headers req !! "authorization") = Some token →
     jwt_verify token JWT_SECRET = Some claims →
     ∃ req', authenticateToken jwt_verify JWT_SECRET req = Next req' ∧
             user req' = Some claims ∧ headers req' = headers req).
Proof.
  unfold authenticateToken. split_and!.
  - by intros ->.
  - by intros token -> ->.
  - intros token claims -> ->. by eexists.
Qed.

End AuthenticationProperties.

Lemma split_not_nil sep s : split sep s ≠ [].
Proof.
  destruct s as [|c s]; [done|]. cbn [split].
  case_bool_decide; [done|]. by destruct (split sep s).
Qed.

Lemma split_second_None sep s :
  split sep s !! 1%nat = None → sep ∉ String.list_ascii_of_string s.
Proof.
  induction s as [|c s IH]; cbn [split String.list_ascii_of_string].
  { intros _. apply not_elem_of_nil. }
  case_bool_decide as Hc.
  - pose proof (split_not_nil sep s). by destruct (split sep s).
  - intros Hnone. apply not_elem_of_cons. split; [by intros ->|].
    apply IH. destruct (split sep s); [done|]. exact Hnone.
Qed.

Lemma split_first_sep sep a b :
  sep ∉ String.list_ascii_of_string a →
  split sep (a +:+ String sep b) = a :: split sep b.
Proof.
  induction a as [|c a IH]; cbn [String.list_ascii_of_string].
  - intros _. change ("" +:+ String sep b) with (String sep b).
    cbn [split]. by rewrite bool_decide_eq_true_2.
  - intros Hnotin. apply not_elem_of_cons in Hnotin as [Hc Ha].
    change (String c a +:+ String sep b) with (String c (a +:+ String sep b)).
    cbn [split]. rewrite bool_decide_eq_false_2 by done.
    by rewrite IH.
Qed.

(** What the middleware lets through, and when it answers 401. *)
Section AuthenticationOutcomes.
Context {Claims : Type}.
Variable jwt_verify : string → option string → option Claims.
Variable JWT_SECRET : option string.

(** X24: The middleware lets a request through only with claims that
    [jwt.verify] has returned for the token of its header, and it puts
    nothing else on the request; when it answers instead, the status is
    401 for no token and 403 for a token that does not verify. *)
Theorem authenticateToken_outcomes (req : Request Claims) :
  match authenticateToken jwt_verify JWT_SECRET req with
  | Next req' =>
      ∃ token claims,
        bearer_token (headers req !! "authorization") = Some token ∧
        jwt_verify token JWT_SECRET = Some claims ∧
        req' = mkRequest (headers req) (Some claims)
  | SendStatus code =>
      (code = 401%nat ∧ bearer_token (headers req !! "authorization") = None) ∨
      (code = 403%nat ∧
       ∃ token, bearer_token (headers req !! "authorization") = Some token ∧
                jwt_verify token JWT_SECRET = None)
  end.
Proof.
  unfold authenticateToken.
  destruct (bearer_token (headers req !! "authorization")) as [token|] eqn:Htoken;
    [|by left].
  destruct (jwt_verify token JWT_SECRET) as [claims|] eqn:Hverify; [by eauto|].
  right. eauto.
Qed.

(** X25: The 401 is the answer exactly when the header is absent, or is
    not empty and has no space in it. *)
Theorem authenticateToken_401_iff (req : Request Claims) :
  authenticateToken jwt_verify JWT_SECRET req = SendStatus 401 ↔
  headers req !! "authorization" = None ∨
  ∃ h, headers req !! "authorization" = Some h ∧ h ≠ "" ∧
       " "%char ∉ String.list_ascii_of_string h.
Proof.
  unfold authenticateToken. split.
  - destruct (headers req !! "authorization") as [h|]; [|by left].
    intros Hgate. right. exists h. split; [done|].
    unfold bearer_token in Hgate. case_bool_decide as Hh.
    + by destruct (jwt_verify "" JWT_SECRET).
    + split; [done|]. apply split_second_None.
      destruct (split " " h !! 1%nat) as [token|]; [|done].
      by destruct (jwt_verify token JWT_SECRET).
  - intros [->|(h & -> & Hh & Hsp)]; [done|].
    by rewrite bearer_token_no_space.
Qed.

(** X26: The word before the first space is not looked at: whatever the
    scheme, the piece after it is the token, and the request goes on
    when that token verifies. *)
Theorem authenticateToken_any_scheme (req : Request Claims) scheme token claims :
  " "%char ∉ String.list_ascii_of_string scheme →
  " "%char ∉ String.list_ascii_of_string token →
  headers req !! "authorization" = Some (scheme +:+ " " +:+ token) →
  jwt_verify token JWT_SECRET = Some claims →
  bearer_token (Some (scheme +:+ " " +:+ token)) = Some token ∧
  authenticateToken jwt_verify JWT_SECRET req =
    Next (mkRequest (headers req) (Some claims)).
Proof.
  intros Hscheme Htoken Hheader Hverify.
  assert (bearer_token (Some (scheme +:+ " " +:+ token)) = Some token) as Hb.
  { unfold bearer_token. rewrite bool_decide_eq_false_2 by by destruct scheme.
    change (scheme +:+ " " +:+ token) with (scheme +:+ String " " token).
    rewrite split_first_sep by done. cbn. by rewrite split_no_sep. }
  split; [done|]. unfold authenticateToken. by rewrite Hheader, Hb, Hverify.
Qed.

(** C8 (where the code departs from it): when the [Authorization]
    header is the empty string, or a scheme word, one space and nothing
    after it, there is no token to extract, but the middleware does not
    answer 401: the empty string is its token and goes to [jwt.verify],
    and the answer is 403 when that verification fails. *)
Theorem authenticateToken_empty_token (req : Request Claims) h :
  headers req !! "authorization" = Some h →
  h = "" ∨ (∃ scheme, (" "%char ∉ String.list_ascii_of_string scheme) ∧
                      h = scheme +:+ " ") →
  bearer_token (Some h) = Some "" ∧
  authenticateToken jwt_verify JWT_SECRET req ≠ SendStatus 401 ∧
  (jwt_verify "" JWT_SECRET = None →
   authenticateToken jwt_verify JWT_SECRET req = SendStatus 403).
Proof.
  intros Hheader Hempty.
  assert (bearer_token (Some h) = Some "") as Htoken.
  { destruct Hempty as [->|(scheme & Hscheme & ->)]; [done|].
    unfold bearer_token. rewrite bool_decide_eq_false_2 by by destruct scheme.
    change (scheme +:+ " ") with (scheme +:+ String " " "").
    by rewrite split_first_sep. }
  unfold authenticateToken. rewrite Hheader, Htoken.
  split; [done|]. split.
  - by destruct (jwt_verify "" JWT_SECRET).
  - by intros ->.
Qed.

End AuthenticationOutcomes.

(** ** The statements at the sample data *)

Example bearer_token_examples :
  bearer_token (Some "Bearer t0k") = Some "t0k" ∧
  bearer_token (Some "Bearer") = None ∧
  bearer_token (Some "") = Some "" ∧
  bearer_token (Some "Bearer ") = Some "".
Proof. done. Qed.

Lemma delete_thought_keeps_reactions_witness :
  Thoughts Sample.db !! 3%N = Some Sample.post ∧
  4%N ∈ thoughtSchema.reactions Sample.post ∧
  Reactions Sample.db !! 4%N = Some Sample.wow ∧
  Reactions (delete_thoughts_thoughtId 3 Sample.db).1 = Reactions Sample.db ∧
  Thoughts (delete_thoughts_thoughtId 3 Sample.db).1 !! 3%N = None.
Proof.
  assert (Thoughts Sample.db !! 3%N = Some Sample.post) as Hth by reflexivity.
  assert (4%N ∈ thoughtSchema.reactions Sample.post) as Hin by apply list_elem_of_here.
  assert (Reactions Sample.db !! 4%N = Some Sample.wow) as Hdoc by reflexivity.
  destruct (delete_thought_keeps_reactions 3 Sample.db Sample.post 4 Sample.wow
              Hth Hin Hdoc) as (_ & Hdel & Hsame & _).
  split; [exact Hth|]. split; [exact Hin|]. split; [exact Hdoc|].
  split; [exact Hsame|]. rewrite Hdel. apply lookup_delete_eq.
Defined.

(** C9, as the claim states it, at an absent [thoughtId]: the handler
    rejects with a [TypeError], which is not a not-found error, and the
    reaction it created stays in the collection. *)
Lemma add_reaction_absent_counterexample :
  Thoughts Sample.db !! 9%N = None ∧
  (post_thoughts_thoughtId_reactions Sample.env 9 Sample.new_reaction Sample.db).2
    = inl TypeError ∧
  not_found
    (post_thoughts_thoughtId_reactions Sample.env 9 Sample.new_reaction Sample.db).2
    = false ∧
  Reactions
    (post_thoughts_thoughtId_reactions Sample.env 9 Sample.new_reaction Sample.db).1
    !! 7%N = Some (reactionSchema.mk "hi" 300 "bob").
Proof. repeat split; reflexivity. Qed.

(** C5, as the claim states it, at a [friendId] that is already a
    friend: [push] adds a second reference and [pull] removes both. *)
Lemma add_then_remove_friend_counterexample :
  Users Sample.db !! 1%N = Some Sample.alice ∧
  userSchema.friends Sample.alice = [2%N] ∧
  (userSchema.friends <$>
     Users (post_users_userId_friends_friendId Sample.hash Sample.env 1 2 Sample.db).1
     !! 1%N) = Some [2%N; 2%N] ∧
  (userSchema.friends <$>
     Users (delete_users_userId_friends_friendId Sample.hash Sample.env 1 2
              (post_users_userId_friends_friendId Sample.hash Sample.env 1 2
                 Sample.db).1).1
     !! 1%N) = Some [] ∧
  (delete_users_userId_friends_friendId Sample.hash Sample.env 1 2
     (post_users_userId_friends_friendId Sample.hash Sample.env 1 2 Sample.db).1).2
    = inr (mkResponse 204 None).
Proof. repeat split; reflexivity. Qed.

(** C3, as the claim states it, at an id that is not in the users
    collection: the answer is 200 with the body [null], not a not-found
    outcome. *)
Lemma put_users_unknown_id_counterexample :
  Users Sample.db !! 9%N = None ∧
  (put_users_userId Sample.hash 9 Sample.new_password Sample.db).2
    = inr (mkResponse 200 (Some JNull)) ∧
  not_found (put_users_userId Sample.hash 9 Sample.new_password Sample.db).2 = false.
Proof. repeat split; reflexivity. Qed.

Lemma put_users_unknown_id_witness :
  Users Sample.db !! 9%N = None ∧
  put_users_userId Sample.hash 9 Sample.new_password Sample.db
    = (Sample.db, inr (mkResponse 200 (Some JNull))).
Proof.
  assert (Users Sample.db !! 9%N = None) as Hid by reflexivity.
  split; [exact Hid|].
  apply (put_users_unknown_id Sample.hash 9 Sample.new_password Sample.db Hid).
Defined.

Lemma put_users_stores_password_as_sent_witness :
  Users Sample.db !! 1%N = Some Sample.alice ∧
  (userSchema.password <$>
     Users (put_users_userId Sample.hash 1 Sample.new_password Sample.db).1 !! 1%N)
    = Some "secret" ∧
  Sample.hash "secret" 10 (salt Sample.env) ≠ "secret".
Proof.
  assert (Users Sample.db !! 1%N = Some Sample.alice) as Hu by reflexivity.
  split; [exact Hu|]. split; [|discriminate].
  apply (put_users_stores_password_as_sent Sample.hash 1 "secret" Sample.db
           Sample.alice Hu).
Defined.

Lemma post_users_stores_hash_witness :
  userSchema.b_password Sample.new_user = Some "p" ∧
  Sample.hash "p" 10 (salt Sample.env) ≠ "p" ∧
  (post_users Sample.hash Sample.env Sample.new_user Sample.db).2 =
    inr (mkResponse 201
           (Some (JUser 7 (userSchema.mk "carol" "carol@x.com" "$2b$s7$p" [] [])))) ∧
  ∃ u, Users (post_users Sample.hash Sample.env Sample.new_user Sample.db).1
         !! new_ObjectId Sample.env = Some u ∧
       userSchema.password u = Sample.hash "p" 10 (salt Sample.env) ∧
       userSchema.password u ≠ "p".
Proof.
  assert (userSchema.b_password Sample.new_user = Some "p") as Hp by reflexivity.
  assert (Sample.hash "p" 10 (salt Sample.env) ≠ "p") as Hne by discriminate.
  assert (post_users Sample.hash Sample.env Sample.new_user Sample.db =
            ((post_users Sample.hash Sample.env Sample.new_user Sample.db).1,
             inr (mkResponse 201
                    (Some (JUser 7 (userSchema.mk "carol" "carol@x.com" "$2b$s7$p"
                                      [] [])))))) as Hrun by reflexivity.
  destruct (post_users_stores_hash Sample.hash Sample.env Sample.new_user "p"
              Sample.db _ _ Hp Hne Hrun) as (u & Hu & Hhash & Hplain & _).
  split; [exact Hp|]. split; [exact Hne|]. split; [reflexivity|].
  exists u. split; [exact Hu|]. split; [exact Hhash|exact Hplain].
Defined.

(** C6, as the claim states it, at [POST /thoughts/:thoughtId/reactions]:
    the body of the 201 is the created Reaction, not the Thought as it
    is after the attach. *)
Lemma attach_reaction_body_counterexample :
  (post_thoughts_thoughtId_reactions Sample.env 3 Sample.new_reaction Sample.db).2
    = inr (mkResponse 201 (Some (JReaction 7 (reactionSchema.mk "hi" 300 "bob")))) ∧
  Thoughts
    (post_thoughts_thoughtId_reactions Sample.env 3 Sample.new_reaction Sample.db).1
    !! 3%N = Some (thoughtSchema.mk "hello" 100 "alice" [4%N; 7%N]) ∧
  (post_thoughts_thoughtId_reactions Sample.env 3 Sample.new_reaction Sample.db).2
    ≠ inr (mkResponse 201
             (Some (JThought 3 (thoughtSchema.mk "hello" 100 "alice" [4%N; 7%N])))).
Proof. split; [reflexivity|]. split; [reflexivity|]. discriminate. Qed.

Lemma attach_responds_201_witness :
  (post_users_userId_friends_friendId Sample.hash Sample.env 2 1 Sample.db =
     ((post_users_userId_friends_friendId Sample.hash Sample.env 2 1 Sample.db).1,
      inr (mkResponse 201
             (Some (JUser 2 (userSchema.mk "bob" "bob@x.com" "$2b$s1$pw" [] [1%N]))))) ∧
   Users (post_users_userId_friends_friendId Sample.hash Sample.env 2 1 Sample.db).1
     !! 2%N = Some (userSchema.mk "bob" "bob@x.com" "$2b$s1$pw" [] [1%N])) ∧
  (post_thoughts_thoughtId_reactions Sample.env 3 Sample.new_reaction Sample.db =
     ((post_thoughts_thoughtId_reactions Sample.env 3 Sample.new_reaction Sample.db).1,
      inr (mkResponse 201 (Some (JReaction 7 (reactionSchema.mk "hi" 300 "bob"))))) ∧
   Reactions
     (post_thoughts_thoughtId_reactions Sample.env 3 Sample.new_reaction Sample.db).1
     !! 7%N = Some (reactionSchema.mk "hi" 300 "bob")).
Proof.
  assert (post_users_userId_friends_friendId Sample.hash Sample.env 2 1 Sample.db =
     ((post_users_userId_friends_friendId Sample.hash Sample.env 2 1 Sample.db).1,
      inr (mkResponse 201
             (Some (JUser 2 (userSchema.mk "bob" "bob@x.com" "$2b$s1$pw" [] [1%N]))))))
    as Hfriend by reflexivity.
  assert (post_thoughts_thoughtId_reactions Sample.env 3 Sample.new_reaction Sample.db =
     ((post_thoughts_thoughtId_reactions Sample.env 3 Sample.new_reaction Sample.db).1,
      inr (mkResponse 201 (Some (JReaction 7 (reactionSchema.mk "hi" 300 "bob"))))))
    as Hreaction by reflexivity.
  destruct (attach_responds_201 Sample.hash Sample.env Sample.db) as [Hf Hr].
  destruct (Hf 2%N 1%N _ _ Hfriend) as (_ & u0 & u & _ & Hu & _ & Hbody).
  destruct (Hr 3%N Sample.new_reaction _ _ Hreaction)
    as (_ & th0 & th & r & _ & _ & _ & Hdoc & Hrb).
  split.
  - split; [exact Hfriend|]. cbn in Hbody. injection Hbody as <-. exact Hu.
  - split; [exact Hreaction|]. cbn in Hrb. injection Hrb as <-. exact Hdoc.
Defined.

(** *** The further properties at the sample data *)


Lemma handle_reactions_immutable_witness :
  Reactions Sample.db !! 4%N = Some Sample.wow ∧
  Reactions
    (handle Sample.hash Sample.env (POST_reactions 3 Sample.new_reaction) Sample.db).1
    !! 4%N = Some Sample.wow.
Proof.
  assert (Reactions Sample.db !! 4%N = Some Sample.wow) as Hold by reflexivity.
  split; [exact Hold|].
  destruct (Reactions
              (handle Sample.hash Sample.env (POST_reactions 3 Sample.new_reaction)
                 Sample.db).1 !! 4%N) as [new|] eqn:Hnew; [|discriminate Hnew].
  f_equal.
  exact (handle_reactions_immutable Sample.hash Sample.env
           (POST_reactions 3 Sample.new_reaction) Sample.db 4 Sample.wow new Hold Hnew).
Defined.

Lemma handle_keeps_credentials_witness :
  Users Sample.db !! 2%N = Some Sample.bob ∧
  Users (handle Sample.hash Sample.env (POST_friends 2 1) Sample.db).1 !! 2%N
    = Some (userSchema.mk "bob" "bob@x.com" "$2b$s1$pw" [] [1%N]) ∧
  userSchema.password (userSchema.mk "bob" "bob@x.com" "$2b$s1$pw" [] [1%N])
    = userSchema.password Sample.bob.
Proof.
  assert (Users Sample.db !! 2%N = Some Sample.bob) as Hu by reflexivity.
  assert (Users (handle Sample.hash Sample.env (POST_friends 2 1) Sample.db).1 !! 2%N
          = Some (userSchema.mk "bob" "bob@x.com" "$2b$s1$pw" [] [1%N]))
    as Hu' by reflexivity.
  assert (∀ userId b, POST_friends 2 1 ≠ PUT_users userId b) as Hput
    by (intros userId b Heq; discriminate Heq).
  destruct (handle_keeps_credentials Sample.hash Sample.env (POST_friends 2 1)
              Sample.db 2 _ _ Hput Hu Hu') as (_ & _ & Hpw & _).
  split; [exact Hu|]. split; [exact Hu'|exact Hpw].
Defined.

Lemma serve_reactions_valid_witness :
  Reactions
    (serve Sample.hash [(Sample.env, POST_reactions 3 Sample.new_reaction)]
       (mkDB ∅ ∅ ∅)) !! 7%N = Some (reactionSchema.mk "hi" 300 "bob") ∧
  reactionSchema.reactionBody (reactionSchema.mk "hi" 300 "bob") ≠ "" ∧
  reactionSchema.username (reactionSchema.mk "hi" 300 "bob") ≠ "".
Proof.
  assert (Reactions
            (serve Sample.hash [(Sample.env, POST_reactions 3 Sample.new_reaction)]
               (mkDB ∅ ∅ ∅)) !! 7%N = Some (reactionSchema.mk "hi" 300 "bob"))
    as Hr by reflexivity.
  split; [exact Hr|].
  exact (serve_reactions_valid Sample.hash _ _ _ Hr).
Defined.

Lemma post_users_duplicate_email_witness :
  failing userSchema.required_paths (userSchema.construct Sample.alice_again) = [] ∧
  Users Sample.db !! new_ObjectId Sample.env = None ∧
  Users Sample.db !! 1%N = Some Sample.alice ∧
  userSchema.b_email Sample.alice_again = Some (userSchema.email Sample.alice) ∧
  post_users Sample.hash Sample.env Sample.alice_again Sample.db
    = (Sample.db, inl (DuplicateKeyError "email_1")).
Proof.
  assert (failing userSchema.required_paths (userSchema.construct Sample.alice_again)
          = []) as Hv by reflexivity.
  assert (Users Sample.db !! new_ObjectId Sample.env = None) as Hfree by reflexivity.
  assert (Users Sample.db !! 1%N = Some Sample.alice) as Hk by reflexivity.
  assert (userSchema.b_email Sample.alice_again = Some (userSchema.email Sample.alice))
    as Hemail by reflexivity.
  repeat (split; [assumption|]).
  exact (post_users_duplicate_email Sample.hash Sample.env Sample.alice_again
           Sample.db 1 Sample.alice Hv Hfree Hk Hemail).
Defined.

Lemma put_users_duplicate_email_witness :
  Users Sample.db !! 2%N = Some Sample.bob ∧
  Users Sample.db !! 1%N = Some Sample.alice ∧
  userSchema.b_email Sample.to_alice_email = Some (userSchema.email Sample.alice) ∧
  put_users_userId Sample.hash 2 Sample.to_alice_email Sample.db
    = (Sample.db, inl (DuplicateKeyError "email_1")).
Proof.
  assert (Users Sample.db !! 2%N = Some Sample.bob) as Hold by reflexivity.
  assert (Users Sample.db !! 1%N = Some Sample.alice) as Hk by reflexivity.
  assert (1%N ≠ 2%N) as Hne by discriminate.
  assert (userSchema.email Sample.alice ≠ userSchema.email Sample.bob) as Hdiff
    by discriminate.
  assert (userSchema.b_email Sample.to_alice_email
          = Some (userSchema.email Sample.alice)) as Hemail by reflexivity.
  repeat (split; [assumption|]).
  exact (put_users_duplicate_email Sample.hash 2 Sample.to_alice_email Sample.db
           Sample.bob 1 Sample.alice Hold Hk Hne Hdiff Hemail).
Defined.

Lemma put_users_without_password_witness :
  Users Sample.db !! 2%N = Some Sample.bob ∧
  userSchema.b_password Sample.rename = None ∧
  Users (put_users_userId Sample.hash 2 Sample.rename Sample.db).1 !! 2%N
    = Some (userSchema.mk "robert" "bob@x.com" "$2b$s1$pw" [] []) ∧
  userSchema.password (userSchema.mk "robert" "bob@x.com" "$2b$s1$pw" [] [])
    = userSchema.password Sample.bob.
Proof.
  assert (Users Sample.db !! 2%N = Some Sample.bob) as Hold by reflexivity.
  assert (userSchema.b_password Sample.rename = None) as Hpw by reflexivity.
  assert (Users (put_users_userId Sample.hash 2 Sample.rename Sample.db).1 !! 2%N
          = Some (userSchema.mk "robert" "bob@x.com" "$2b$s1$pw" [] []))
    as Hu' by reflexivity.
  repeat (split; [assumption|]).
  exact (put_users_without_password Sample.hash 2 Sample.rename Sample.db
           Sample.bob _ Hold Hpw Hu').
Defined.

Lemma delete_absent_noop_witness :
  Users Sample.db !! 9%N = None ∧
  Thoughts Sample.db !! 9%N = None ∧
  delete_users_userId Sample.hash 9 Sample.db
    = (Sample.db, inr (mkResponse 204 None)) ∧
  delete_thoughts_thoughtId 9 Sample.db = (Sample.db, inr (mkResponse 204 None)).
Proof.
  assert (Users Sample.db !! 9%N = None) as Hu by reflexivity.
  assert (Thoughts Sample.db !! 9%N = None) as Hth by reflexivity.
  repeat (split; [assumption|]).
  exact (delete_absent_noop Sample.hash 9 9 Sample.db Hu Hth).
Defined.

Lemma delete_users_no_cascade_witness :
  Users Sample.db !! 1%N = Some Sample.alice ∧
  2%N ∈ userSchema.friends Sample.alice ∧
  Users (delete_users_userId Sample.hash 2 Sample.db).1 !! 2%N = None ∧
  Users (delete_users_userId Sample.hash 2 Sample.db).1 !! 1%N = Some Sample.alice.
Proof.
  assert (1%N ≠ 2%N) as Hne by discriminate.
  assert (Users Sample.db !! 1%N = Some Sample.alice) as Hk by reflexivity.
  destruct (delete_users_no_cascade Sample.hash 2 Sample.db 1 Sample.alice Hne Hk)
    as (_ & Hgone & Hkept & _).
  split; [exact Hk|]. split; [apply list_elem_of_here|]. split; assumption.
Defined.

Lemma remove_friend_not_member_witness :
  Users Sample.db !! 1%N = Some Sample.alice ∧
  failing userSchema.required_paths Sample.alice = [] ∧
  (5%N ∉ userSchema.friends Sample.alice) ∧
  delete_users_userId_friends_friendId Sample.hash Sample.env 1 5 Sample.db
    = (Sample.db, inr (mkResponse 204 None)).
Proof.
  assert (Users Sample.db !! 1%N = Some Sample.alice) as Hu by reflexivity.
  assert (failing userSchema.required_paths Sample.alice = []) as Hv by reflexivity.
  assert (5%N ∉ userSchema.friends Sample.alice) as Hnotin.
  { intros Hx. apply list_elem_of_singleton in Hx. discriminate Hx. }
  repeat (split; [assumption|]).
  exact (remove_friend_not_member Sample.hash Sample.env 1 5 Sample.db Sample.alice
           Hu Hv Hnotin).
Defined.

Lemma friends_of_absent_user_witness :
  Users Sample.db !! 9%N = None ∧
  post_users_userId_friends_friendId Sample.hash Sample.env 9 1 Sample.db
    = (Sample.db, inl TypeError) ∧
  delete_users_userId_friends_friendId Sample.hash Sample.env 9 1 Sample.db
    = (Sample.db, inl TypeError).
Proof.
  assert (Users Sample.db !! 9%N = None) as Hu by reflexivity.
  split; [exact Hu|].
  exact (friends_of_absent_user Sample.hash Sample.env 9 1 Sample.db Hu).
Defined.


Lemma deleted_friend_not_listed_witness :
  Users Sample.db !! 1%N = Some Sample.alice ∧
  2%N ∈ userSchema.friends Sample.alice ∧
  ∃ l, get_users Sample.hash (delete_users_userId Sample.hash 2 Sample.db).1
       = ((delete_users_userId Sample.hash 2 Sample.db).1, inr (mkListing 200 l)) ∧
       ∀ e, e ∈ l → 2%N ∉ (populated.friends e).*1.
Proof.
  assert (Users Sample.db !! 1%N = Some Sample.alice) as Hk by reflexivity.
  assert (1%N ≠ 2%N) as Hne by discriminate.
  assert (2%N ∈ userSchema.friends Sample.alice) as Hfriend by apply list_elem_of_here.
  destruct (deleted_friend_not_listed Sample.hash 2 Sample.db 1 Sample.alice
              Hk Hne Hfriend) as (_ & Hlist).
  split; [exact Hk|]. split; [exact Hfriend|exact Hlist].
Defined.

Lemma authenticateToken_any_scheme_witness :
  headers Sample.basic !! "authorization" = Some ("Basic" +:+ " " +:+ "t0k") ∧
  Sample.verify "t0k" Sample.secret = Some "alice" ∧
  authenticateToken Sample.verify Sample.secret Sample.basic
    = Next (mkRequest (headers Sample.basic) (Some "alice")).
Proof.
  assert (" "%char ∉ String.list_ascii_of_string "Basic") as Hscheme.
  { apply (bool_decide_unpack _). reflexivity. }
  assert (" "%char ∉ String.list_ascii_of_string "t0k") as Htoken.
  { apply (bool_decide_unpack _). reflexivity. }
  assert (headers Sample.basic !! "authorization" = Some ("Basic" +:+ " " +:+ "t0k"))
    as Hheader by reflexivity.
  assert (Sample.verify "t0k" Sample.secret = Some "alice") as Hverify by reflexivity.
  destruct (authenticateToken_any_scheme Sample.verify Sample.secret Sample.basic
              "Basic" "t0k" "alice" Hscheme Htoken Hheader Hverify) as (_ & Hgate).
  split; [exact Hheader|]. split; [exact Hverify|exact Hgate].
Defined.

(** *** The amended claims at the sample data *)

(** C4, as the claim states it, at a thought that holds a reference
    to reaction 4 and whose [thoughtText] a [PUT] has emptied: the
    removal is rejected, the reference and the Reaction document stay. *)
Lemma remove_reaction_emptied_counterexample :
  (put_thoughts_thoughtId 3 Sample.empty_text Sample.db2).1 = Sample.db_emptied ∧
  Thoughts Sample.db_emptied !! 3%N = Some Sample.emptied ∧
  4%N ∈ thoughtSchema.reactions Sample.emptied ∧
  delete_thoughts_thoughtId_reactions_reactionId Sample.env 3 4 Sample.db_emptied
    = (Sample.db_emptied, inl (ValidationError {["thoughtText"]})) ∧
  Reactions
    (delete_thoughts_thoughtId_reactions_reactionId Sample.env 3 4 Sample.db_emptied).1
    !! 4%N = Some Sample.wow.
Proof.
  split; [reflexivity|]. split; [reflexivity|]. split; [apply list_elem_of_here|].
  split; reflexivity.
Qed.

Lemma remove_reaction_deletes_reference_and_document_witness :
  Thoughts Sample.db !! 3%N = Some Sample.post ∧
  failing thoughtSchema.required_paths Sample.post = [] ∧
  4%N ∈ thoughtSchema.reactions Sample.post ∧
  Reactions
    (delete_thoughts_thoughtId_reactions_reactionId Sample.env 3 4 Sample.db).1
    !! 4%N = None ∧
  (post_thoughts_thoughtId_reactions Sample.env 3 Sample.new_reaction Sample.db).2
    = inr (mkResponse 201 (Some (JReaction 7 (reactionSchema.mk "hi" 300 "bob")))) ∧
  (new_ObjectId Sample.env ∉ thoughtSchema.reactions Sample.post) ∧
  (∃ th2,
     Thoughts
       (delete_thoughts_thoughtId_reactions_reactionId Sample.env 3 7
          (post_thoughts_thoughtId_reactions Sample.env 3 Sample.new_reaction
             Sample.db).1).1 !! 3%N = Some th2 ∧
     thoughtSchema.reactions th2 = thoughtSchema.reactions Sample.post ∧
     length (thoughtSchema.reactions th2) = length (thoughtSchema.reactions Sample.post)) ∧
  findById Reaction 7
    (delete_thoughts_thoughtId_reactions_reactionId Sample.env 3 7
       (post_thoughts_thoughtId_reactions Sample.env 3 Sample.new_reaction Sample.db).1).1
  = ((delete_thoughts_thoughtId_reactions_reactionId Sample.env 3 7
       (post_thoughts_thoughtId_reactions Sample.env 3 Sample.new_reaction Sample.db).1).1,
     inr None).
Proof.
  assert (Thoughts Sample.db !! 3%N = Some Sample.post) as Hth by reflexivity.
  assert (failing thoughtSchema.required_paths Sample.post = []) as Hv by reflexivity.
  assert (4%N ∈ thoughtSchema.reactions Sample.post) as Hin by apply list_elem_of_here.
  assert (post_thoughts_thoughtId_reactions Sample.env 3 Sample.new_reaction Sample.db
          = ((post_thoughts_thoughtId_reactions Sample.env 3 Sample.new_reaction
                Sample.db).1,
             inr (mkResponse 201
                    (Some (JReaction 7 (reactionSchema.mk "hi" 300 "bob"))))))
    as Hrun by reflexivity.
  assert (new_ObjectId Sample.env ∉ thoughtSchema.reactions Sample.post) as Hnotin.
  { intros Hx. apply list_elem_of_singleton in Hx. discriminate Hx. }
  destruct (remove_reaction_deletes_reference_and_document Sample.env 3 Sample.db
              Sample.post Hth) as [Hremove Hround].
  destruct (Hremove Hv 4%N Hin) as (_ & _ & _ & Hgone & _).
  destruct (Hround Sample.env Sample.new_reaction _ _ Hrun Hnotin)
    as (_ & _ & Hback & Hfetch).
  split; [exact Hth|]. split; [exact Hv|]. split; [exact Hin|].
  split; [exact Hgone|]. split; [rewrite Hrun; reflexivity|].
  split; [exact Hnotin|]. split; [exact Hback|exact Hfetch].
Defined.

(** In the second half of C4 the new id must not be one that the
    thought references already: were 7 among the references of the
    thought, adding reaction 7 and removing it would leave one
    reference fewer than before. *)
Example add_then_remove_referenced_id :
  let db := mkDB ∅ {[ 3%N := thoughtSchema.mk "hello" 100 "alice" [7%N] ]} ∅ in
  let added := post_thoughts_thoughtId_reactions Sample.env 3 Sample.new_reaction db in
  let res := delete_thoughts_thoughtId_reactions_reactionId Sample.env 3 7 added.1 in
  added.2 = inr (mkResponse 201 (Some (JReaction 7 (reactionSchema.mk "hi" 300 "bob")))) ∧
  res.2 = inr (mkResponse 204 None) ∧
  (thoughtSchema.reactions <$> Thoughts res.1 !! 3%N) = Some [].
Proof. repeat split; reflexivity. Qed.

(** C10, as the claim states it, at a thought that exists and whose
    [thoughtText] a [PUT] has emptied, and a stored reaction that the
    thought does not reference: the removal is rejected and the
    Reaction document stays. *)
Lemma remove_unreferenced_emptied_counterexample :
  Thoughts Sample.db_emptied !! 3%N = Some Sample.emptied ∧
  (6%N ∉ thoughtSchema.reactions Sample.emptied) ∧
  Reactions Sample.db_emptied !! 6%N = Some Sample.meh ∧
  delete_thoughts_thoughtId_reactions_reactionId Sample.env 3 6 Sample.db_emptied
    = (Sample.db_emptied, inl (ValidationError {["thoughtText"]})) ∧
  Reactions
    (delete_thoughts_thoughtId_reactions_reactionId Sample.env 3 6 Sample.db_emptied).1
    !! 6%N = Some Sample.meh.
Proof.
  split; [reflexivity|]. split.
  { intros Hx. apply list_elem_of_singleton in Hx. discriminate Hx. }
  split; [reflexivity|]. split; reflexivity.
Qed.

Lemma remove_reaction_not_referenced_witness :
  Thoughts Sample.db2 !! 3%N = Some Sample.post ∧
  failing thoughtSchema.required_paths Sample.post = [] ∧
  (6%N ∉ thoughtSchema.reactions Sample.post) ∧
  Reactions Sample.db2 !! 6%N = Some Sample.meh ∧
  delete_thoughts_thoughtId_reactions_reactionId Sample.env 3 6 Sample.db2 =
    (set_Reactions (delete 6%N (Reactions Sample.db2)) Sample.db2,
     inr (mkResponse 204 None)) ∧
  Reactions
    (delete_thoughts_thoughtId_reactions_reactionId Sample.env 3 6 Sample.db2).1
    !! 6%N = None.
Proof.
  assert (Thoughts Sample.db2 !! 3%N = Some Sample.post) as Hth by reflexivity.
  assert (failing thoughtSchema.required_paths Sample.post = []) as Hv by reflexivity.
  assert (6%N ∉ thoughtSchema.reactions Sample.post) as Hnotin.
  { intros Hx. apply list_elem_of_singleton in Hx. discriminate Hx. }
  destruct (remove_reaction_not_referenced Sample.env 3 6 Sample.db2 Sample.post
              Hth Hv Hnotin) as (_ & Hrun & Hgone).
  split; [exact Hth|]. split; [exact Hv|]. split; [exact Hnotin|].
  split; [reflexivity|]. split; [exact Hrun|exact Hgone].
Defined.

Lemma add_reaction_absent_present_witness :
  reactionSchema.cast_errors Sample.new_reaction = [] ∧
  failing reactionSchema.required_paths
    (reactionSchema.construct (Date_now Sample.env) Sample.new_reaction) = [] ∧
  Reactions Sample.db !! new_ObjectId Sample.env = None ∧
  (Thoughts Sample.db !! 9%N = None ∧
   (post_thoughts_thoughtId_reactions Sample.env 9 Sample.new_reaction Sample.db).2
     = inl TypeError) ∧
  (Thoughts Sample.db !! 3%N = Some Sample.post ∧
   failing thoughtSchema.required_paths Sample.post = [] ∧
   Thoughts
     (post_thoughts_thoughtId_reactions Sample.env 3 Sample.new_reaction Sample.db).1
     !! 3%N = Some (thoughtSchema.mk "hello" 100 "alice" [4%N; 7%N])).
Proof.
  assert (reactionSchema.cast_errors Sample.new_reaction = []) as Hcast by reflexivity.
  assert (failing reactionSchema.required_paths
            (reactionSchema.construct (Date_now Sample.env) Sample.new_reaction) = [])
    as Hb by reflexivity.
  assert (Reactions Sample.db !! new_ObjectId Sample.env = None) as Hfree by reflexivity.
  assert (Thoughts Sample.db !! 9%N = None) as Habsent by reflexivity.
  assert (Thoughts Sample.db !! 3%N = Some Sample.post) as Hth by reflexivity.
  assert (failing thoughtSchema.required_paths Sample.post = []) as Hv by reflexivity.
  destruct (add_reaction_absent_present Sample.env 9 Sample.new_reaction Sample.db
              Hcast Hb Hfree) as [Hnone _].
  destruct (add_reaction_absent_present Sample.env 3 Sample.new_reaction Sample.db
              Hcast Hb Hfree) as [_ Hsome].
  destruct (Hnone Habsent) as (Hrun & _).
  destruct (Hsome Sample.post Hth Hv) as (_ & _ & Hpush & _).
  split; [exact Hcast|]. split; [exact Hb|]. split; [exact Hfree|]. split.
  - split; [exact Habsent|]. rewrite Hrun. reflexivity.
  - split; [exact Hth|]. split; [exact Hv|]. exact Hpush.
Defined.

Lemma add_then_remove_new_friend_witness :
  Users Sample.db !! 2%N = Some Sample.bob ∧
  (1%N ∉ userSchema.friends Sample.bob) ∧
  (userSchema.friends <$>
     Users (post_users_userId_friends_friendId Sample.hash Sample.env 2 1 Sample.db).1
     !! 2%N) = Some [1%N] ∧
  (userSchema.friends <$>
     Users (delete_users_userId_friends_friendId Sample.hash Sample.env 2 1
              (post_users_userId_friends_friendId Sample.hash Sample.env 2 1
                 Sample.db).1).1 !! 2%N) = Some (userSchema.friends Sample.bob) ∧
  (delete_users_userId_friends_friendId Sample.hash Sample.env 2 1
     (post_users_userId_friends_friendId Sample.hash Sample.env 2 1 Sample.db).1).1
    = Sample.db.
Proof.
  assert (Users Sample.db !! 2%N = Some Sample.bob) as Hu by reflexivity.
  assert (1%N ∉ userSchema.friends Sample.bob) as Hnotin by apply not_elem_of_nil.
  destruct (add_then_remove_new_friend Sample.hash Sample.env Sample.env 2 1
              Sample.db Sample.bob Hu Hnotin) as (Hfriends & Hsame).
  split; [exact Hu|]. split; [exact Hnotin|]. split; [reflexivity|].
  split; [exact Hfriends|exact Hsame].
Defined.

Lemma authenticateToken_empty_token_witness :
  headers Sample.empty_header !! "authorization" = Some "" ∧
  bearer_token (Some "") = Some "" ∧
  Sample.verify "" Sample.secret = None ∧
  authenticateToken Sample.verify Sample.secret Sample.empty_header = SendStatus 403 ∧
  authenticateToken Sample.verify Sample.secret Sample.empty_header ≠ SendStatus 401.
Proof.
  assert (headers Sample.empty_header !! "authorization" = Some "") as Hheader
    by reflexivity.
  assert (Sample.verify "" Sample.secret = None) as Hverify by reflexivity.
  destruct (authenticateToken_empty_token Sample.verify Sample.secret
              Sample.empty_header "" Hheader (or_introl eq_refl))
    as (Htoken & Hnot & Hforbidden).
  split; [exact Hheader|]. split; [exact Htoken|]. split; [exact Hverify|].
  split; [exact (Hforbidden Hverify)|exact Hnot].
Defined.

Lemma post_users_invalid_witness :
  failing userSchema.required_paths (userSchema.construct Sample.no_fields) ≠ [] ∧
  ∃ paths : gset string,
    post_users Sample.hash Sample.env Sample.no_fields Sample.db
      = (Sample.db, inl (ValidationError paths)) ∧
    "password" ∈ paths ∧ "email" ∈ paths ∧ "username" ∈ paths.
Proof.
  assert (failing userSchema.required_paths (userSchema.construct Sample.no_fields)
          ≠ []) as Hv by discriminate.
  destruct (post_users_invalid Sample.hash Sample.env Sample.no_fields Sample.db Hv)
    as (paths & Hrun & _ & Hpaths).
  split; [exact Hv|]. exists paths. split; [exact Hrun|].
  split; [|split]; apply Hpaths.
  - right; right. split; reflexivity.
  - right; left. split; reflexivity.
  - left. split; reflexivity.
Defined.

Lemma post_thoughts_created_witness :
  thoughtSchema.cast_errors Sample.new_thought = [] ∧
  failing thoughtSchema.required_paths
    (thoughtSchema.construct (Date_now Sample.env) Sample.new_thought) = [] ∧
  Thoughts Sample.db !! new_ObjectId Sample.env = None ∧
  (post_thoughts Sample.env Sample.new_thought Sample.db).2
    = inr (mkResponse 201
             (Some (JThought 7 (thoughtSchema.mk "again" 300 "bob" [])))) ∧
  Users (post_thoughts Sample.env Sample.new_thought Sample.db).1 = Users Sample.db.
Proof.
  assert (thoughtSchema.cast_errors Sample.new_thought = []) as Hcast by reflexivity.
  assert (failing thoughtSchema.required_paths
            (thoughtSchema.construct (Date_now Sample.env) Sample.new_thought) = [])
    as Hv by reflexivity.
  assert (Thoughts Sample.db !! new_ObjectId Sample.env = None) as Hfree
    by reflexivity.
  destruct (post_thoughts_created Sample.env Sample.new_thought Sample.db
              Hcast Hv Hfree) as (Hrun & _ & _ & Husers).
  repeat (split; [assumption|]). split; [|exact Husers].
  rewrite Hrun. reflexivity.
Defined.

Lemma put_thoughts_sets_paths_witness :
  thoughtSchema.cast_errors Sample.retext = [] ∧
  Thoughts Sample.db !! 3%N = Some Sample.post ∧
  put_thoughts_thoughtId 3 Sample.retext Sample.db =
    (set_Thoughts
       (<[3%N := thoughtSchema.mk "hello!" 100 "alice" [4%N]]> (Thoughts Sample.db))
       Sample.db,
     inr (mkResponse 200
            (Some (JThought 3 (thoughtSchema.mk "hello!" 100 "alice" [4%N]))))).
Proof.
  assert (thoughtSchema.cast_errors Sample.retext = []) as Hcast by reflexivity.
  assert (Thoughts Sample.db !! 3%N = Some Sample.post) as Hold by reflexivity.
  split; [exact Hcast|]. split; [exact Hold|].
  destruct (put_thoughts_sets_paths 3 Sample.retext Sample.db Sample.post Hcast Hold)
    as (Hrun & _).
  exact Hrun.
Defined.

Lemma emptied_thought_rejects_reactions_witness :
  Thoughts Sample.db !! 3%N = Some Sample.post ∧
  failing thoughtSchema.required_paths Sample.post = [] ∧
  reactionSchema.cast_errors Sample.new_reaction = [] ∧
  failing reactionSchema.required_paths
    (reactionSchema.construct (Date_now Sample.env) Sample.new_reaction) = [] ∧
  Reactions Sample.db !! new_ObjectId Sample.env = None ∧
  delete_thoughts_thoughtId_reactions_reactionId Sample.env 3 4
    (put_thoughts_thoughtId 3 (thoughtSchema.mk_body (Some "") None None None)
       Sample.db).1
  = ((put_thoughts_thoughtId 3 (thoughtSchema.mk_body (Some "") None None None)
        Sample.db).1,
     inl (ValidationError {["thoughtText"]})).
Proof.
  assert (Thoughts Sample.db !! 3%N = Some Sample.post) as Hold by reflexivity.
  assert (failing thoughtSchema.required_paths Sample.post = []) as Hv by reflexivity.
  assert (reactionSchema.cast_errors Sample.new_reaction = []) as Hcast by reflexivity.
  assert (failing reactionSchema.required_paths
            (reactionSchema.construct (Date_now Sample.env) Sample.new_reaction) = [])
    as Hb by reflexivity.
  assert (Reactions Sample.db !! new_ObjectId Sample.env = None) as Hfree
    by reflexivity.
  destruct (emptied_thought_rejects_reactions Sample.env Sample.env 3
              Sample.new_reaction 4 Sample.db Sample.post Hold Hv Hcast Hb Hfree)
    as (_ & _ & Hdelete).
  repeat (split; [assumption|]). exact Hdelete.
Defined.

Lemma added_reaction_is_listed_witness :
  Thoughts Sample.db !! 3%N = Some Sample.post ∧
  (post_thoughts_thoughtId_reactions Sample.env 3 Sample.new_reaction Sample.db).2
    = inr (mkResponse 201 (Some (JReaction 7 (reactionSchema.mk "hi" 300 "bob")))) ∧
  ∃ l, get_thoughts
         (post_thoughts_thoughtId_reactions Sample.env 3 Sample.new_reaction
            Sample.db).1
       = ((post_thoughts_thoughtId_reactions Sample.env 3 Sample.new_reaction
             Sample.db).1, inr (mkListing 200 l)) ∧
       populated.mk_thought 3 "hello" 100 "alice"
         [(4%N, Sample.wow); (7%N, reactionSchema.mk "hi" 300 "bob")] ∈ l.
Proof.
  assert (Thoughts Sample.db !! 3%N = Some Sample.post) as Hth by reflexivity.
  assert (post_thoughts_thoughtId_reactions Sample.env 3 Sample.new_reaction Sample.db
          = ((post_thoughts_thoughtId_reactions Sample.env 3 Sample.new_reaction
                Sample.db).1,
             inr (mkResponse 201
                    (Some (JReaction 7 (reactionSchema.mk "hi" 300 "bob"))))))
    as Hrun by reflexivity.
  assert (new_ObjectId Sample.env ∉ thoughtSchema.reactions Sample.post) as Hnotin.
  { intros Hx. apply list_elem_of_singleton in Hx. discriminate Hx. }
  split; [exact Hth|]. split; [rewrite Hrun; reflexivity|].
  exact (added_reaction_is_listed Sample.env 3 Sample.new_reaction Sample.db
           Sample.post _ _ Hth Hrun Hnotin).
Defined.

Lemma create_rejects_bad_date_witness :
  thoughtSchema.b_createdAt Sample.late_thought = Some 8640000000000001%Z ∧
  reactionSchema.b_createdAt Sample.late_reaction = Some 8640000000000001%Z ∧
  (∃ paths : gset string,
     post_thoughts Sample.env Sample.late_thought Sample.db
       = (Sample.db, inl (ValidationError paths)) ∧ "createdAt" ∈ paths) ∧
  (∃ paths : gset string,
     post_thoughts_thoughtId_reactions Sample.env 3 Sample.late_reaction Sample.db
       = (Sample.db, inl (ValidationError paths)) ∧ "createdAt" ∈ paths).
Proof.
  assert (8640000000000001 < -8640000000000000 ∨
          8640000000000000 < 8640000000000001)%Z as Hrange by (right; reflexivity).
  assert (thoughtSchema.b_createdAt Sample.late_thought = Some 8640000000000001%Z)
    as Htb by reflexivity.
  assert (reactionSchema.b_createdAt Sample.late_reaction = Some 8640000000000001%Z)
    as Hrb by reflexivity.
  split; [exact Htb|]. split; [exact Hrb|].
  exact (create_rejects_bad_date Sample.env 3 Sample.late_thought Sample.late_reaction
           Sample.db _ Hrange Htb Hrb).
Defined.

Lemma put_thoughts_rejects_bad_date_witness :
  thoughtSchema.b_createdAt Sample.late_thought = Some 8640000000000001%Z ∧
  put_thoughts_thoughtId 3 Sample.late_thought Sample.db
    = (Sample.db, inl (CastError "createdAt")).
Proof.
  assert (8640000000000001 < -8640000000000000 ∨
          8640000000000000 < 8640000000000001)%Z as Hrange by (right; reflexivity).
  assert (thoughtSchema.b_createdAt Sample.late_thought = Some 8640000000000001%Z)
    as Hb by reflexivity.
  split; [exact Hb|].
  exact (put_thoughts_rejects_bad_date 3 Sample.late_thought Sample.db _ Hrange Hb).
Defined.
